(** * PhotoEE: the photoelectric-effect simulator of [src/app.js]

    A shallow embedding of the [PhotoelectricSimulator] class: the physics
    calculation ([calculatePhysics]), the measurement sampler and ledger
    ([takePrecisionMeasurement]), [resetExperiment], [clearGraph] and the CSV
    export ([exportAllData]).

    Number model.  A JavaScript number is idealised as a real number or one
    of the three special values [Infinity], [-Infinity] and [NaN]; rounding
    and overflow of IEEE doubles are not modelled and zero carries no sign
    (a zero divisor acts as [+0]).  The special values arise exactly where
    the source can produce them from finite operands: a division by zero and
    the square root of a negative number.  Where a bound or an equality
    would hold in exact arithmetic only, the statement either stays within
    what the doubles keep (order, sign, finiteness) or carries an explicit
    allowance; module [F64] evaluates the sampler on the doubles
    themselves.

    The DOM (text contents, canvases) only displays values and is left
    out of [Simulator]; the two user-visible outcomes of an export, the
    [alert] box and the downloaded file, are kept as emitted effects.  The
    log panel ([logMessage]), the colour helper and the particle animation
    ([updateSetupAnimation]) are modelled on their own, after the
    simulator. *)

From Stdlib Require Import Reals Lra List String ZArith Bool Lia.
From Stdlib Require Floats QArith.
Import ListNotations.

(** ** JavaScript numbers *)

Inductive number : Type :=
| Fin (r : R)   (* a finite value *)
| PInf          (* [Infinity] *)
| NInf          (* [-Infinity] *)
| NaN.

Arguments Fin r%_R.

(** The operators of the language. *)
Module JS.

Definition isFinite (x : number) : bool :=
  match x with Fin _ => true | _ => false end.

Definition Rgtb (a b : R) : bool := if Rlt_dec b a then true else false.
Definition Rgeb (a b : R) : bool := if Rle_dec b a then true else false.
Definition Reqb (a b : R) : bool := if Req_dec_T a b then true else false.

(** Unary minus. *)
Definition neg (x : number) : number :=
  match x with
  | Fin r => Fin (- r)
  | PInf => NInf
  | NInf => PInf
  | NaN => NaN
  end.

(** [x + y], exact on finite operands. *)
Definition add (x y : number) : number :=
  match x, y with
  | NaN, _ | _, NaN => NaN
  | Fin a, Fin b => Fin (a + b)
  | PInf, NInf | NInf, PInf => NaN
  | PInf, _ | _, PInf => PInf
  | NInf, _ | _, NInf => NInf
  end.

(** [x - y]. *)
Definition sub (x y : number) : number := add x (neg y).

(** An infinity scaled by the finite factor [a]: [NaN] for zero, the sign
    flipped for a negative factor. *)
Definition scale_inf (a : R) (i : number) : number :=
  if Reqb a 0 then NaN else if Rgtb a 0 then i else neg i.

(** [x * y], exact on finite operands. *)
Definition mul (x y : number) : number :=
  match x, y with
  | NaN, _ | _, NaN => NaN
  | Fin a, Fin b => Fin (a * b)
  | Fin a, i | i, Fin a => scale_inf a i
  | PInf, PInf | NInf, NInf => PInf
  | PInf, NInf | NInf, PInf => NInf
  end.

(** [x / y]: the exact quotient when the divisor is not zero; otherwise
    [NaN] for [0 / 0] and an infinity with the sign of the dividend. *)
Definition div (x y : number) : number :=
  match x, y with
  | NaN, _ | _, NaN => NaN
  | Fin a, Fin b =>
      if Reqb b 0
      then (if Reqb a 0 then NaN else if Rgtb a 0 then PInf else NInf)
      else Fin (a / b)
  | Fin _, _ => Fin 0
  | i, Fin b => if Rgeb b 0 then i else neg i
  | _, _ => NaN
  end.

(** [x > y] and [x >= y]; every comparison with [NaN] is false. *)
Definition gt (x y : number) : bool :=
  match x, y with
  | NaN, _ | _, NaN => false
  | Fin a, Fin b => Rgtb a b
  | PInf, PInf | NInf, NInf => false
  | PInf, _ | _, NInf => true
  | _, PInf | NInf, _ => false
  end.

Definition ge (x y : number) : bool :=
  match x, y with
  | NaN, _ | _, NaN => false
  | Fin a, Fin b => Rgeb a b
  | PInf, _ | _, NInf => true
  | _, PInf | NInf, _ => false
  end.

(** [x <= y] as a proposition. *)
Definition le (x y : number) : Prop := ge y x = true.

End JS.

(** The functions of the [Math] object the simulator calls. *)
Module Math.

(** [Math.max(x, y)]. *)
Definition max (x y : number) : number :=
  match x, y with
  | NaN, _ | _, NaN => NaN
  | Fin a, Fin b => Fin (Rmax a b)
  | PInf, _ | _, PInf => PInf
  | NInf, z | z, NInf => z
  end.

(** [Math.exp(x)]. *)
Definition exp (x : number) : number :=
  match x with
  | Fin r => Fin (Rtrigo_def.exp r)
  | PInf => PInf
  | NInf => Fin 0
  | NaN => NaN
  end.

(** [Math.sqrt(x)]. *)
Definition sqrt (x : number) : number :=
  match x with
  | Fin r => if JS.Rgeb r 0 then Fin (R_sqrt.sqrt r) else NaN
  | PInf => PInf
  | NInf | NaN => NaN
  end.

(** [Math.pow(x, n)] for a natural exponent [n]. *)
Fixpoint pow (x : number) (n : nat) : number :=
  match n with
  | O => Fin 1
  | S n' => JS.mul x (pow x n')
  end.

End Math.

Declare Scope js_scope.
Delimit Scope js_scope with js.
Bind Scope js_scope with number.
Infix "+" := JS.add : js_scope.
Infix "-" := JS.sub : js_scope.
Infix "*" := JS.mul : js_scope.
Infix "/" := JS.div : js_scope.
Notation "- x" := (JS.neg x) : js_scope.
Infix ">?" := JS.gt (at level 70, no associativity) : js_scope.
Infix ">=?" := JS.ge (at level 70, no associativity) : js_scope.

(** ** The simulator object *)

Open Scope string_scope.

(** [this.constants]. *)
Definition planckConstant : R := 4.136e-15.   (* eV s *)
Definition speedOfLight : R := 2.998e8.       (* m/s *)
Definition elementaryCharge : R := 1.602e-19. (* C *)

Record Material : Type := mkMaterial {
  name : string;
  symbol : string;
  workFunction : R;
  color : string
}.

Definition Cesium : Material := mkMaterial "Cesium" "Cs" 2.10 "#FF6B6B".
Definition Sodium : Material := mkMaterial "Sodium" "Na" 2.28 "#4ECDC4".
Definition Potassium : Material := mkMaterial "Potassium" "K" 2.30 "#45B7D1".
Definition Aluminum : Material := mkMaterial "Aluminum" "Al" 4.08 "#96CEB4".
Definition Copper : Material := mkMaterial "Copper" "Cu" 4.70 "#FFEAA7".
Definition Silver : Material := mkMaterial "Silver" "Ag" 4.73 "#DDA0DD".
Definition Gold : Material := mkMaterial "Gold" "Au" 5.10 "#FFD700".

(** [this.materials]. *)
Definition materials : list Material :=
  [Cesium; Sodium; Potassium; Aluminum; Copper; Silver; Gold].

(** [this.state]. *)
Record State : Type := mkState {
  currentMaterial : Material;
  wavelength : R;          (* nm *)
  intensity : R;           (* W/m2 *)
  area : R;                (* cm2 *)
  voltage : R;             (* V *)
  isLightOn : bool;
  experimentRunning : bool;
  measurementCount : nat
}.

(** One entry of [this.experimentData]. *)
Record Measurement : Type := mkMeasurement {
  m_voltage : R;
  m_mean : number;
  m_standardDeviation : number;
  m_standardError : number;
  m_measurements : nat;
  m_individualReadings : list number;
  m_timestamp : Z;
  m_material : string;
  m_wavelength : R;
  m_intensity : R;
  m_area : R
}.

(** The simulator: [this.state], [this.experimentData] and the points of the
    chart, [this.ivChart.data.datasets[0].data]. *)
Record Simulator : Type := mkSimulator {
  state : State;
  experimentData : list Measurement;
  chartData : list (R * number)
}.

(** The object as the constructor leaves it. *)
Definition initialState : State :=
  mkState Cesium 400 5 0.10 0 false false 0.

Definition initialSimulator : Simulator :=
  mkSimulator initialState [] [].

(** The value returned by [calculatePhysics]. *)
Record Physics : Type := mkPhysics {
  frequency : number;
  photonEnergy : number;
  p_workFunction : number;
  maxKineticEnergy : number;
  thresholdWavelength : number;
  stoppingPotential : number;
  current : number;
  isEmission : bool
}.

Open Scope js_scope.

(** [calculatePhysics()], reading [this.state]. *)
Definition calculatePhysics (st : State) : Physics :=
  let frequency := Fin speedOfLight / (Fin (wavelength st) * Fin 1e-9) in
  let photonEnergy := Fin planckConstant * frequency in
  let workFunction := Fin (workFunction (currentMaterial st)) in
  let maxKineticEnergy := Math.max (Fin 0) (photonEnergy - workFunction) in
  let thresholdWavelength :=
    (Fin planckConstant * Fin speedOfLight)
    / (workFunction * Fin 1.602e-19) * Fin 1e9 in
  let stoppingPotential := maxKineticEnergy in
  let isEmission := photonEnergy >? workFunction in
  let current :=
    if isEmission && (Fin (voltage st) >=? - stoppingPotential)
    then
      let saturationCurrent :=
        Fin (intensity st) * Fin (area st) * Fin 0.001 in
      if Fin (voltage st) >=? Fin 0
      then saturationCurrent
      else
        let factor := Fin (voltage st) / stoppingPotential in
        saturationCurrent * Math.exp factor
    else Fin 0 in
  mkPhysics frequency photonEnergy workFunction maxKineticEnergy
            thresholdWavelength stoppingPotential current isEmission.

Close Scope js_scope.

(** ** The measurement sampler *)

Open Scope js_scope.

(** The loop of [takePrecisionMeasurement]: [measurementCount] readings, the
    [i]-th built from the [i]-th value [us i] returned by [Math.random()]. *)
Definition readings (current : number) (us : nat -> R) (measurementCount : nat)
  : list number :=
  map (fun i =>
         let noise := (Fin (us i) - Fin 0.5) * Fin 0.0001 * current in
         current + noise)
      (seq 0 measurementCount).

(** [measurements.reduce((a, b) => a + b, 0)]. *)
Definition sumOf (measurements : list number) : number :=
  fold_left (fun a b => a + b) measurements (Fin 0).

(** [measurements.reduce((a, b) => a + Math.pow(b - mean, 2), 0)]. *)
Definition sumSquares (mean : number) (measurements : list number) : number :=
  fold_left (fun a b => a + Math.pow (b - mean) 2) measurements (Fin 0).

Record Statistics : Type := mkStatistics {
  s_readings : list number;
  s_mean : number;
  s_standardDeviation : number;
  s_standardError : number
}.

(** The statistics block of [takePrecisionMeasurement]. *)
Definition statistics (current : number) (us : nat -> R) (measurementCount : nat)
  : Statistics :=
  let measurements := readings current us measurementCount in
  let mean := sumOf measurements / Fin (INR measurementCount) in
  let variance := sumSquares mean measurements / Fin (INR measurementCount) in
  let standardDeviation := Math.sqrt variance in
  let standardError :=
    standardDeviation / Math.sqrt (Fin (INR measurementCount)) in
  mkStatistics measurements mean standardDeviation standardError.

Close Scope js_scope.

Definition set_measurementCount (n : nat) (st : State) : State :=
  mkState (currentMaterial st) (wavelength st) (intensity st) (area st)
          (voltage st) (isLightOn st) (experimentRunning st) n.

Definition set_isLightOn (b : bool) (st : State) : State :=
  mkState (currentMaterial st) (wavelength st) (intensity st) (area st)
          (voltage st) b (experimentRunning st) (measurementCount st).

Definition set_currentMaterial (m : Material) (st : State) : State :=
  mkState m (wavelength st) (intensity st) (area st)
          (voltage st) (isLightOn st) (experimentRunning st)
          (measurementCount st).

Definition set_wavelength (v : R) (st : State) : State :=
  mkState (currentMaterial st) v (intensity st) (area st)
          (voltage st) (isLightOn st) (experimentRunning st)
          (measurementCount st).

Definition set_intensity (v : R) (st : State) : State :=
  mkState (currentMaterial st) (wavelength st) v (area st)
          (voltage st) (isLightOn st) (experimentRunning st)
          (measurementCount st).

Definition set_area (v : R) (st : State) : State :=
  mkState (currentMaterial st) (wavelength st) (intensity st) v
          (voltage st) (isLightOn st) (experimentRunning st)
          (measurementCount st).

Definition set_voltage (v : R) (st : State) : State :=
  mkState (currentMaterial st) (wavelength st) (intensity st) (area st)
          v (isLightOn st) (experimentRunning st) (measurementCount st).

(** [takePrecisionMeasurement()]: [us] are the values [Math.random()]
    returns during the call and [now] is [Date.now()]. *)
Definition takePrecisionMeasurement (us : nat -> R) (now : Z)
  (this : Simulator) : Simulator :=
  let st := state this in
  let physics := calculatePhysics st in
  let count := 1000%nat in (* the local constant [measurementCount] *)
  let stats := statistics (current physics) us count in
  let measurementData :=
    mkMeasurement (voltage st) (s_mean stats) (s_standardDeviation stats)
                  (s_standardError stats) count (s_readings stats)
                  now (name (currentMaterial st)) (wavelength st)
                  (intensity st) (area st) in
  mkSimulator
    (set_measurementCount (S (measurementCount st)) st)
    (experimentData this ++ [measurementData])
    (chartData this ++ [(voltage st, s_mean stats)]).

(** [this.experimentData.slice(-k)], the rows [updateDataTable] shows with
    [k = 10]. *)
Definition lastN (k : nat) (data : list Measurement) : list Measurement :=
  skipn (List.length data - k) data.

Definition updateDataTable (this : Simulator) : list Measurement :=
  lastN 10 (experimentData this).

(** [clearGraph()]. *)
Definition clearGraph (this : Simulator) : Simulator :=
  mkSimulator (state this) (experimentData this) [].

(** [resetExperiment()]. *)
Definition resetExperiment (this : Simulator) : Simulator :=
  let st := set_measurementCount 0 (set_isLightOn false (state this)) in
  let this1 := mkSimulator st [] (chartData this) in
  let this2 := clearGraph this1 in
  let st2 :=
    set_currentMaterial (nth 0 materials Cesium)
      (set_voltage 0 (set_area 0.10 (set_intensity 5
         (set_wavelength 400 (state this2))))) in
  mkSimulator st2 (experimentData this2) (chartData this2).

(** [toggleLight()]. *)
Definition toggleLight (us : nat -> R) (now : Z) (this : Simulator)
  : Simulator :=
  let this1 :=
    mkSimulator (set_isLightOn (negb (isLightOn (state this))) (state this))
                (experimentData this) (chartData this) in
  if isLightOn (state this1)
  then takePrecisionMeasurement us now this1
  else this1.

(** ** The CSV export *)

(** A field of a CSV row, by the conversion the source applies to it. *)
Inductive cell : Type :=
| Text (s : string)                           (* a string, as it is *)
| Num (x : R)                                 (* a number, default conversion *)
| Count (n : nat)                             (* the number of readings *)
| Fixed (x : number) (digits : nat)           (* [x.toFixed(digits)] *)
| IsoString (t : Z)                           (* [new Date(t).toISOString()] *)
| QuotedFixed (xs : list number) (digits : nat).
    (* ['"' + xs.map(r => r.toFixed(digits)).join(';') + '"'] *)

(** [csvContent]: the header line and one line per row, each joined with
    commas. *)
Record Csv : Type := mkCsv {
  headerLine : list string;
  rowLines : list (list cell)
}.

(** What the user gets from [exportAllData]: an [alert] box, or a file named
    [photoelectric_data_<stamp>.csv]. *)
Inductive effect : Type :=
| Alert (msg : string)
| Download (stamp : Z) (content : Csv).

Definition headers : list string :=
  [ "Timestamp"; "Material"; "Work_Function_eV"; "Wavelength_nm";
    "Photon_Energy_eV"; "Intensity_W_per_m2"; "Area_cm2";
    "Applied_Voltage_V"; "Mean_Current_uA"; "Standard_Deviation_uA";
    "Standard_Error_uA"; "Measurements_Count"; "Individual_Readings" ].

Definition noDataMessage : string :=
  "No experimental data to export. Please switch on the light and take measurements first.".

Open Scope js_scope.

(** The body of the [forEach] of [exportAllData]: the row of [data]. *)
Definition exportRow (this : Simulator) (data : Measurement) : list cell :=
  let photonEnergy :=
    Fin planckConstant * Fin speedOfLight / (Fin (m_wavelength data) * Fin 1e-9) in
  [ IsoString (m_timestamp data);
    Text (m_material data);
    Fixed (Fin (workFunction (currentMaterial (state this)))) 6;
    Num (m_wavelength data);
    Fixed photonEnergy 6;
    Num (m_intensity data);
    Num (m_area data);
    Fixed (Fin (m_voltage data)) 6;
    Fixed (m_mean data) 6;
    Fixed (m_standardDeviation data) 6;
    Fixed (m_standardError data) 6;
    Count (m_measurements data);
    QuotedFixed (m_individualReadings data) 6 ].

Close Scope js_scope.

(** [exportAllData()], with [now] the value of [Date.now()]. *)
Definition exportAllData (now : Z) (this : Simulator)
  : Simulator * list effect :=
  if Nat.eqb (List.length (experimentData this)) 0
  then (this, [Alert noDataMessage])
  else
    let csvContent :=
      mkCsv headers (map (exportRow this) (experimentData this)) in
    (this, [Download now csvContent]).

(** ** The event listeners *)

(** The events [setupEventListeners] subscribes to, with the values each
    handler reads: the slider value, and for the handlers that may take a
    measurement the values of [Math.random()] and [Date.now()]. *)
Inductive event : Type :=
| MaterialChange (index : nat)
| WavelengthInput (value : R)
| IntensityInput (value : R)
| AreaInput (value : R)
| VoltageInput (value : R) (us : nat -> R) (now : Z)
| SwitchLightClick (us : nat -> R) (now : Z)
| ResetClick
| ExportClick (now : Z)
| ClearGraphClick.

Definition with_state (st : State) (this : Simulator) : Simulator :=
  mkSimulator st (experimentData this) (chartData this).

(** One handler run.  [None] is the [TypeError] of a material index outside
    the table ([this.materials[i]] is then [undefined]); the [select] element
    of the page offers the indices of the table only. *)
Definition handle (e : event) (this : Simulator)
  : option (Simulator * list effect) :=
  match e with
  | MaterialChange index =>
      match nth_error materials index with
      | Some m => Some (with_state (set_currentMaterial m (state this)) this, [])
      | None => None
      end
  | WavelengthInput value =>
      Some (with_state (set_wavelength value (state this)) this, [])
  | IntensityInput value =>
      Some (with_state (set_intensity value (state this)) this, [])
  | AreaInput value =>
      Some (with_state (set_area value (state this)) this, [])
  | VoltageInput value us now =>
      let this1 := with_state (set_voltage value (state this)) this in
      if isLightOn (state this1)
      then Some (takePrecisionMeasurement us now this1, [])
      else Some (this1, [])
  | SwitchLightClick us now => Some (toggleLight us now this, [])
  | ResetClick => Some (resetExperiment this, [])
  | ExportClick now => Some (exportAllData now this)
  | ClearGraphClick => Some (clearGraph this, [])
  end.

(** The simulators a sequence of events can lead to. *)
Inductive reachable : Simulator -> Prop :=
| reachable_init : reachable initialSimulator
| reachable_step e this this' effects :
    reachable this ->
    handle e this = Some (this', effects) ->
    reachable this'.

(** The ledger invariant: as many records as the counter says. *)
Definition ledger_ok (this : Simulator) : Prop :=
  List.length (experimentData this) = measurementCount (state this).

(** The I-V points of the records, in the order of the ledger. *)
Definition ivPoints (data : list Measurement) : list (R * number) :=
  map (fun d => (m_voltage d, m_mean d)) data.

(** The documented ranges of the sliders. *)
Definition opticsInRange (st : State) : Prop :=
  (100 <= wavelength st <= 700)%R /\
  (1 <= intensity st <= 10)%R /\
  (0.01 <= area st <= 1.00)%R.

Definition inRange (st : State) : Prop :=
  opticsInRange st /\ (-5 <= voltage st <= 5)%R.



(** A uniform source: every draw lies in [0, 1). *)
Definition uniform (us : nat -> R) : Prop :=
  forall i, (0 <= us i < 1)%R.

(** ** Expressions used to state the properties *)

Open Scope R_scope.

(** The photon energy and the threshold wavelength as real expressions. *)
Definition photonEnergyOf (st : State) : R :=
  planckConstant * (speedOfLight / (wavelength st * 1e-9)).

Definition thresholdOf (st : State) : R :=
  planckConstant * speedOfLight
  / (workFunction (currentMaterial st) * 1.602e-19) * 1e9.

Definition saturationOf (st : State) : R :=
  intensity st * area st * 0.001.

(** A material whose work function is zero: not in the table, but a value
    of the type of its entries. *)
Definition zeroMaterial : Material := mkMaterial "Zero" "Z" 0 "#000000".

Definition allFinite (p : Physics) : bool :=
  JS.isFinite (frequency p) && JS.isFinite (photonEnergy p)
  && JS.isFinite (p_workFunction p) && JS.isFinite (maxKineticEnergy p)
  && JS.isFinite (thresholdWavelength p) && JS.isFinite (stoppingPotential p)
  && JS.isFinite (current p).


Fixpoint Rsum (l : list R) : R :=
  match l with
  | [] => 0
  | x :: l' => x + Rsum l'
  end.


(** The statistics as real expressions. *)
Definition meanOf (l : list R) (n : nat) : R := Rsum l / INR n.


Close Scope R_scope.

(** The ledger after one measurement with Cesium ... *)
Definition measuredWithCesium : Simulator :=
  toggleLight (fun _ => 0.5%R) 0 initialSimulator.

(** ... and the simulator once Gold is selected. *)
Definition thenGoldSelected : Simulator :=
  with_state (set_currentMaterial Gold (state measuredWithCesium))
             measuredWithCesium.


(** ** The display helpers *)

(** [x < y], the mirror image of [x > y]. *)
Definition lt (x y : number) : bool := JS.gt y x.

(** [getWavelengthColor(wavelength)]. *)
Definition getWavelengthColor (wavelength : R) : string :=
  if lt (Fin wavelength) (Fin 380) then "#8B00FF"        (* Violet *)
  else if lt (Fin wavelength) (Fin 440) then "#4B0082"   (* Indigo *)
  else if lt (Fin wavelength) (Fin 490) then "#0000FF"   (* Blue *)
  else if lt (Fin wavelength) (Fin 510) then "#00FF00"   (* Green *)
  else if lt (Fin wavelength) (Fin 580) then "#FFFF00"   (* Yellow *)
  else if lt (Fin wavelength) (Fin 645) then "#FF7F00"   (* Orange *)
  else if lt (Fin wavelength) (Fin 750) then "#FF0000"   (* Red *)
  else "#8B0000".                                        (* Dark red *)

(** ** The log panel *)

(** An entry of the log: the time of day as text, and the message. *)
Record LogEntry : Type := mkLogEntry {
  log_time : string;
  log_message : string
}.

(** The loop at the end of [logMessage]: the first entry is removed as long
    as there are more than 20. *)
Fixpoint trimLog (log : list LogEntry) : list LogEntry :=
  match log with
  | [] => []
  | _ :: rest => if Nat.ltb 20 (List.length log) then trimLog rest else log
  end.

(** [logMessage(message)] on the children of the log element, with
    [timestamp] the text of [new Date().toLocaleTimeString()]. *)
Definition logMessage (timestamp message : string) (log : list LogEntry)
  : list LogEntry :=
  trimLog (log ++ [mkLogEntry timestamp message])%list.

(** The default parameters with Gold as cathode. *)
Definition goldAt400 : State := set_currentMaterial Gold initialState.

(** What every record of the ledger looks like: 1000 readings, counted as
    such, taken with a material of the table. *)
Definition record_ok (d : Measurement) : Prop :=
  m_measurements d = 1000 /\
  List.length (m_individualReadings d) = 1000 /\
  exists m, In m materials /\ m_material d = name m.

(** The facts that hold of every simulator the handlers can produce. *)
Record invariant (this : Simulator) : Prop := mkInvariant {
  inv_material : In (currentMaterial (state this)) materials;
  inv_running : experimentRunning (state this) = false;
  inv_records : Forall record_ok (experimentData this);
  inv_chart : exists older,
      ivPoints (experimentData this) = (older ++ chartData this)%list
}.

(** The voltage and mean fields of an exported row. *)
Definition rowPoint (row : list cell) : cell * cell :=
  (nth 7 row (Text ""), nth 8 row (Text "")).

(** ** The particle animation *)

(** The particles of the setup diagram.  Their coordinates are sums and
    products of finite numbers, kept as reals. *)
Record Photon : Type := mkPhoton {
  ph_x : R;
  ph_y : R;
  ph_speed : R;
  ph_size : R;
  ph_color : string
}.

Record Electron : Type := mkElectron {
  el_x : R;
  el_y : R;
  el_speed : R;
  el_size : R;
  el_life : Z
}.

(** [this.photonParticles] and [this.electronParticles]. *)
Record Particles : Type := mkParticles {
  photonParticles : list Photon;
  electronParticles : list Electron
}.

(** [photon.x += photon.speed]. *)
Definition movePhoton (photon : Photon) : Photon :=
  mkPhoton (ph_x photon + ph_speed photon)%R (ph_y photon) (ph_speed photon)
           (ph_size photon) (ph_color photon).

(** [electron.x += electron.speed; electron.life--]. *)
Definition moveElectron (electron : Electron) : Electron :=
  mkElectron (el_x electron + el_speed electron)%R (el_y electron)
             (el_speed electron) (el_size electron) (el_life electron - 1)%Z.

(** The photon filter of [updateSetupAnimation].  The callback runs on the
    photons in order; [es] is [this.electronParticles], to which it pushes,
    and [k] counts the values of [Math.random()] already used, the next one
    being [rs k]. *)
Fixpoint filterPhotons (st : State) (rs : nat -> R) (photons : list Photon)
  (es : list Electron) (k : nat) : list Photon * list Electron * nat :=
  match photons with
  | [] => ([], es, k)
  | photon0 :: rest =>
      let photon := movePhoton photon0 in
      if JS.ge (Fin (ph_x photon)) (Fin 250)
      then
        let physics := calculatePhysics st in
        if isEmission physics
        then
          if lt (Fin (rs k)) (Fin 0.7)
          then
            let electron :=
              mkElectron 270 (ph_y photon) (1.5 + rs (S k))%R 2 60 in
            filterPhotons st rs rest (es ++ [electron])%list (S (S k))
          else filterPhotons st rs rest es (S k)
        else filterPhotons st rs rest es k
      else
        let '(kept, es', k') := filterPhotons st rs rest es k in
        if lt (Fin (ph_x photon)) (Fin 600)
        then (photon :: kept, es', k')
        else (kept, es', k')
  end.

(** The callback of the electron filter, after the electron has moved. *)
Definition keepElectron (electron : Electron) : bool :=
  (0 <? el_life electron)%Z && lt (Fin (el_x electron)) (Fin 380).

(** [updateSetupAnimation()]: one frame of the particles, returned with the
    count of the random values used so far. *)
Definition updateSetupAnimation (st : State) (rs : nat -> R) (k : nat)
  (particles : Particles) : Particles * nat :=
  if negb (isLightOn st) then (particles, k)
  else
    let '(photons, k1) :=
      if lt (Fin (rs k)) (Fin 0.4)
      then
        ((photonParticles particles
          ++ [mkPhoton 105 (150 + (rs (S k) - 0.5) * 40)%R
                       (2 + rs (S (S k)))%R (3 + rs (S (S (S k))) * 2)%R
                       (getWavelengthColor (wavelength st))])%list,
         S (S (S (S k))))
      else (photonParticles particles, S k) in
    let '(photons', electrons, k2) :=
      filterPhotons st rs photons (electronParticles particles) k1 in
    let electrons' := filter keepElectron (map moveElectron electrons) in
    (mkParticles photons' electrons', k2).

(** The frames drawn one after the other, each with the state of its
    moment. *)
Fixpoint frames (sts : list State) (rs : nat -> R) (k : nat)
  (particles : Particles) : Particles * nat :=
  match sts with
  | [] => (particles, k)
  | st :: rest =>
      let '(particles', k') := updateSetupAnimation st rs k particles in
      frames rest rs k' particles'
  end.

(** The particles of the constructor, of a reset and of a light switched
    off. *)
Definition noParticles : Particles := mkParticles [] [].

(** Photons are spaced when each has advanced by at least 2 for itself and
    for every photon behind it in the list, and moves by at least 2. *)
Fixpoint spaced (photons : list Photon) : Prop :=
  match photons with
  | [] => True
  | photon :: rest =>
      (105 + 2 * INR (S (List.length rest)) <= ph_x photon)%R /\
      (2 <= ph_speed photon)%R /\
      spaced rest
  end.

(** The invariant of the photons, and of the electrons. *)
Definition photons_ok (particles : Particles) : Prop :=
  spaced (photonParticles particles) /\
  Forall (fun p => (ph_x p < 250)%R) (photonParticles particles).

Definition electrons_ok (particles : Particles) : Prop :=
  Forall (fun e => (1 <= el_life e <= 59)%Z /\ (el_x e < 380)%R /\ el_size e = 2%R)
         (electronParticles particles).


(** ** The sampler on doubles

    The sampling loop and the mean of [takePrecisionMeasurement], and the
    saturation current of [calculatePhysics], on IEEE 754 binary64 numbers
    with round-to-nearest, as the engine evaluates them.  They run on
    concrete inputs and show the rounding that the real-number model above
    leaves out. *)

Module F64.
Import PrimFloat.

(** [this.state.intensity * this.state.area * 0.001]. *)
#[warnings="-inexact-float"]
Definition saturationCurrent (intensity area : float) : float :=
  (intensity * area * 0.001)%float.

(** The loop of [takePrecisionMeasurement], with [us i] the [i]-th value of
    [Math.random()]. *)
#[warnings="-inexact-float"]
Definition readings (current : float) (us : nat -> float)
  (measurementCount : nat) : list float :=
  map (fun i =>
         let noise := ((us i - 0.5) * 0.0001 * current)%float in
         (current + noise)%float)
      (seq 0 measurementCount).

(** [measurements.reduce((a, b) => a + b, 0)]. *)
Definition sumOf (measurements : list float) : float :=
  fold_left (fun a b => (a + b)%float) measurements 0%float.

(** [mean], for [measurementCount = 1000]. *)
Definition meanOf (measurements : list float) : float :=
  (sumOf measurements / 1000)%float.

(** The rational number a finite double stands for. *)
Definition exact (x : float) : option QArith_base.Q :=
  match FloatOps.Prim2SF x with
  | SpecFloat.S754_zero _ => Some (QArith_base.Qmake 0 1)
  | SpecFloat.S754_finite s m e =>
      Some (QArith_base.Qmult
              (QArith_base.inject_Z (if s then Z.neg m else Z.pos m))
              (QArith_base.Qpower (QArith_base.Qmake 2 1) e))
  | _ => None
  end.




End F64.

(** A material whose work function is negative: not in the table either. *)
Definition negativeMaterial : Material :=
  mkMaterial "Negative" "N" (-1) "#000000".


(** * Properties *)

Open Scope R_scope.

(** ** Arithmetic of finite numbers *)

Lemma Rgtb_true a b : JS.Rgtb a b = true <-> b < a.
Proof. unfold JS.Rgtb. destruct (Rlt_dec b a); split; intros; try easy. Qed.

Lemma Rgeb_true a b : JS.Rgeb a b = true <-> b <= a.
Proof. unfold JS.Rgeb. destruct (Rle_dec b a); split; intros; try easy. Qed.

Lemma Rgtb_false a b : JS.Rgtb a b = false <-> a <= b.
Proof.
  unfold JS.Rgtb. destruct (Rlt_dec b a); split; intros; try easy; lra.
Qed.

Lemma Rgeb_false a b : JS.Rgeb a b = false <-> a < b.
Proof.
  unfold JS.Rgeb. destruct (Rle_dec b a); split; intros; try easy; lra.
Qed.

Lemma Reqb_false a b : a <> b -> JS.Reqb a b = false.
Proof. intros H. unfold JS.Reqb. destruct (Req_dec_T a b); easy. Qed.

Lemma Reqb_refl a : JS.Reqb a a = true.
Proof. unfold JS.Reqb. destruct (Req_dec_T a a); easy. Qed.

Lemma div_fin a b : b <> 0 -> JS.div (Fin a) (Fin b) = Fin (a / b).
Proof. intros H. simpl. now rewrite Reqb_false. Qed.

Lemma div_zero_pos a : 0 < a -> JS.div (Fin a) (Fin 0) = PInf.
Proof.
  intros H. simpl. rewrite Reqb_refl, Reqb_false by lra.
  now replace (JS.Rgtb a 0) with true by (symmetry; now apply Rgtb_true).
Qed.

Lemma scale_inf_pos a i : 0 < a -> JS.scale_inf a i = i.
Proof.
  intros H. unfold JS.scale_inf. rewrite Reqb_false by lra.
  now replace (JS.Rgtb a 0) with true by (symmetry; now apply Rgtb_true).
Qed.


Lemma le_fin a b : JS.le (Fin a) (Fin b) <-> a <= b.
Proof. unfold JS.le. simpl. apply Rgeb_true. Qed.

(** ** The physics calculation on finite values *)

Lemma frequency_fin st :
  wavelength st <> 0 ->
  frequency (calculatePhysics st)
  = Fin (speedOfLight / (wavelength st * 1e-9)).
Proof.
  intros H. unfold calculatePhysics; cbn [frequency JS.mul].
  apply div_fin. nra.
Qed.

Lemma photonEnergy_fin st :
  wavelength st <> 0 ->
  photonEnergy (calculatePhysics st) = Fin (photonEnergyOf st).
Proof.
  intros H. pose proof (frequency_fin st H) as F.
  unfold calculatePhysics in *; cbn [frequency photonEnergy] in *.
  now rewrite F.
Qed.

Lemma maxKineticEnergy_fin st :
  wavelength st <> 0 ->
  maxKineticEnergy (calculatePhysics st)
  = Fin (Rmax 0 (photonEnergyOf st - workFunction (currentMaterial st))).
Proof.
  intros H. pose proof (photonEnergy_fin st H) as F.
  unfold calculatePhysics in *; cbn [photonEnergy maxKineticEnergy] in *.
  now rewrite F.
Qed.

Lemma stoppingPotential_eq st :
  stoppingPotential (calculatePhysics st)
  = maxKineticEnergy (calculatePhysics st).
Proof. reflexivity. Qed.

Lemma isEmission_fin st :
  wavelength st <> 0 ->
  isEmission (calculatePhysics st)
  = JS.Rgtb (photonEnergyOf st) (workFunction (currentMaterial st)).
Proof.
  intros H. pose proof (photonEnergy_fin st H) as F.
  unfold calculatePhysics in *; cbn [photonEnergy isEmission] in *.
  now rewrite F.
Qed.

Lemma thresholdWavelength_fin st :
  workFunction (currentMaterial st) <> 0 ->
  thresholdWavelength (calculatePhysics st) = Fin (thresholdOf st).
Proof.
  intros H. unfold calculatePhysics; cbn [thresholdWavelength JS.mul].
  rewrite div_fin by nra. reflexivity.
Qed.

Lemma planck_light_pos : 0 < planckConstant * speedOfLight.
Proof. unfold planckConstant, speedOfLight. lra. Qed.

Lemma thresholdWavelength_zero st :
  workFunction (currentMaterial st) = 0 ->
  thresholdWavelength (calculatePhysics st) = PInf.
Proof.
  intros H. unfold calculatePhysics; cbn [thresholdWavelength JS.mul].
  rewrite H, Rmult_0_l, div_zero_pos by apply planck_light_pos.
  cbn [JS.mul]. apply scale_inf_pos. lra.
Qed.

(** The current, by the region of the voltage. *)
Lemma current_fin st :
  wavelength st <> 0 ->
  current (calculatePhysics st)
  = Fin (let pe := photonEnergyOf st in
         let wf := workFunction (currentMaterial st) in
         if JS.Rgtb pe wf && JS.Rgeb (voltage st) (- Rmax 0 (pe - wf))
         then if JS.Rgeb (voltage st) 0
              then saturationOf st
              else saturationOf st * exp (voltage st / Rmax 0 (pe - wf))
         else 0).
Proof.
  intros H.
  pose proof (photonEnergy_fin st H) as F.
  unfold calculatePhysics in *; cbn [photonEnergy current] in *.
  rewrite F. cbn [JS.sub JS.neg JS.add Math.max JS.gt JS.ge JS.mul].
  set (pe := photonEnergyOf st). set (wf := workFunction (currentMaterial st)).
  replace (pe + - wf) with (pe - wf) by lra.
  destruct (JS.Rgtb pe wf) eqn:E; cbn [andb]; [|reflexivity].
  destruct (JS.Rgeb (voltage st) (- Rmax 0 (pe - wf))) eqn:G; [|reflexivity].
  destruct (JS.Rgeb (voltage st) 0) eqn:V; [reflexivity|].
  apply Rgtb_true in E.
  rewrite div_fin.
  - reflexivity.
  - unfold Rmax. destruct (Rle_dec 0 (pe - wf)); lra.
Qed.

Lemma materials_workFunction_pos m : In m materials -> 0 < workFunction m.
Proof.
  unfold materials; cbn [In].
  intros [<-|[<-|[<-|[<-|[<-|[<-|[<-|[]]]]]]]]; cbn; lra.
Qed.

Lemma photonEnergyOf_initial : photonEnergyOf initialState = 3.099932.
Proof.
  unfold photonEnergyOf, planckConstant, speedOfLight; cbn [wavelength initialState].
  lra.
Qed.

Lemma stoppingPotential_initial :
  stoppingPotential (calculatePhysics initialState) = Fin 0.999932.
Proof.
  rewrite stoppingPotential_eq, maxKineticEnergy_fin, photonEnergyOf_initial
    by (cbn; lra).
  cbn [initialState currentMaterial Cesium workFunction].
  f_equal. unfold Rmax. destruct (Rle_dec _ _); lra.
Qed.

Lemma opticsInRange_wavelength st : opticsInRange st -> wavelength st <> 0.
Proof. intros [H _]. lra. Qed.

Lemma saturationOf_nonneg st : opticsInRange st -> 0 <= saturationOf st.
Proof. intros (_ & Hi & Ha). unfold saturationOf. nra. Qed.

(** ** The claims about [calculatePhysics] *)

(** C2. At 400 nm with Cesium the model gives a photon energy of 3.099932 eV,
    a maximal kinetic energy of 0.999932 eV and reports emission, as the
    claim says; but the threshold wavelength it returns lies between
    3.685e21 and 3.686e21 (the work function is multiplied by 1.602e-19
    although the Planck constant is in eV s), far from 590.9 nm. *)
Theorem calculatePhysics_cesium_400nm :
  let p := calculatePhysics initialState in
  photonEnergy p = Fin 3.099932 /\
  Rabs (3.099932 - 3.10) <= 0.01 /\
  maxKineticEnergy p = Fin 0.999932 /\
  isEmission p = true /\
  exists t, thresholdWavelength p = Fin t /\ 3.685e21 < t < 3.686e21.
Proof.
  assert (W : wavelength initialState <> 0) by (cbn; lra).
  cbv zeta. repeat split.
  - rewrite photonEnergy_fin, photonEnergyOf_initial by exact W. reflexivity.
  - apply Rabs_le. lra.
  - rewrite <- stoppingPotential_eq. apply stoppingPotential_initial.
  - rewrite isEmission_fin, photonEnergyOf_initial by exact W.
    apply Rgtb_true. cbn [initialState currentMaterial Cesium workFunction]. lra.
  - exists (thresholdOf initialState). split.
    + apply thresholdWavelength_fin. cbn. lra.
    + unfold thresholdOf, planckConstant, speedOfLight.
      cbn [initialState currentMaterial Cesium workFunction]. lra.
Qed.

(** C4, as the claim states it, fails: with a work function of zero the
    model signals nothing and returns [Infinity] as threshold wavelength. *)
Lemma calculatePhysics_zero_workFunction_infinite :
  thresholdWavelength
    (calculatePhysics (set_currentMaterial zeroMaterial initialState))
  = PInf.
Proof. apply thresholdWavelength_zero. reflexivity. Qed.

Lemma thresholdWavelength_negative st :
  workFunction (currentMaterial st) < 0 ->
  JS.gt (Fin 0) (thresholdWavelength (calculatePhysics st)) = true.
Proof.
  intros H. rewrite thresholdWavelength_fin by lra.
  cbn [JS.gt]. apply Rgtb_true. unfold thresholdOf.
  pose proof planck_light_pos as Q.
  set (w := workFunction (currentMaterial st)) in *.
  assert (N : w * 1.602e-19 < 0) by nra.
  assert (I : / (w * 1.602e-19) < 0) by now apply Rinv_lt_0_compat.
  unfold Rdiv. nra.
Qed.

(** C4, amended.  A work function of zero or less is not rejected: the
    result is returned, with a threshold wavelength that is not a finite
    number for zero and is below zero for a negative work function.  What
    keeps these values out is the table alone: for each of its materials
    the threshold wavelength is a finite positive number. *)
Theorem calculatePhysics_threshold_by_workFunction (st : State) :
  (In (currentMaterial st) materials ->
   exists t, thresholdWavelength (calculatePhysics st) = Fin t /\ 0 < t) /\
  (workFunction (currentMaterial st) = 0 ->
   JS.isFinite (thresholdWavelength (calculatePhysics st)) = false) /\
  (workFunction (currentMaterial st) < 0 ->
   JS.gt (Fin 0) (thresholdWavelength (calculatePhysics st)) = true).
Proof.
  split; [|split].
  - intros M. pose proof (materials_workFunction_pos _ M) as P.
    exists (thresholdOf st). split.
    + apply thresholdWavelength_fin. lra.
    + unfold thresholdOf.
      pose proof planck_light_pos as Q.
      apply Rmult_lt_0_compat; [|lra].
      apply Rdiv_lt_0_compat; [exact Q | nra].
  - intros Z. now rewrite thresholdWavelength_zero.
  - apply thresholdWavelength_negative.
Qed.

Lemma calculatePhysics_threshold_by_workFunction_witness :
  (exists t,
     thresholdWavelength (calculatePhysics initialState) = Fin t /\ 0 < t) /\
  JS.isFinite
    (thresholdWavelength
       (calculatePhysics (set_currentMaterial zeroMaterial initialState)))
  = false /\
  JS.gt (Fin 0)
        (thresholdWavelength
           (calculatePhysics
              (set_currentMaterial negativeMaterial initialState)))
  = true.
Proof.
  split; [|split].
  - apply (calculatePhysics_threshold_by_workFunction initialState).
    left. reflexivity.
  - apply (calculatePhysics_threshold_by_workFunction
             (set_currentMaterial zeroMaterial initialState)).
    reflexivity.
  - apply (calculatePhysics_threshold_by_workFunction
             (set_currentMaterial negativeMaterial initialState)).
    cbn. lra.
Defined.

(** C6. With the parameters in their ranges and a positive work function,
    every field of the result, the current among them, is a finite number;
    and when emission occurs the stopping potential, the divisor of the
    retarding branch, is a positive finite number. *)
Theorem calculatePhysics_finite (st : State) :
  inRange st ->
  0 < workFunction (currentMaterial st) ->
  let p := calculatePhysics st in
  allFinite p = true /\
  (exists c, current p = Fin c) /\
  (isEmission p = true ->
   exists vs, stoppingPotential p = Fin vs /\ 0 < vs).
Proof.
  intros [Ho _] Hw.
  pose proof (opticsInRange_wavelength st Ho) as W.
  cbv zeta. repeat split.
  - unfold allFinite. rewrite stoppingPotential_eq.
    rewrite frequency_fin, photonEnergy_fin, maxKineticEnergy_fin,
      current_fin by exact W.
    rewrite thresholdWavelength_fin by lra. reflexivity.
  - rewrite current_fin by exact W. eexists. reflexivity.
  - intros E. rewrite isEmission_fin in E by exact W.
    apply Rgtb_true in E.
    rewrite stoppingPotential_eq, maxKineticEnergy_fin by exact W.
    eexists. split; [reflexivity|].
    unfold Rmax. destruct (Rle_dec _ _); lra.
Qed.

Lemma calculatePhysics_finite_witness :
  allFinite (calculatePhysics initialState) = true /\
  (exists c, current (calculatePhysics initialState) = Fin c) /\
  (isEmission (calculatePhysics initialState) = true ->
   exists vs, stoppingPotential (calculatePhysics initialState) = Fin vs /\ 0 < vs).
Proof.
  apply (calculatePhysics_finite initialState).
  - unfold inRange, opticsInRange; cbn. lra.
  - cbn. lra.
Defined.

(** C5. With the wavelength, intensity and area in their ranges and the
    material fixed, the current does not decrease when the voltage increases
    within [-stoppingPotential, 0]. *)
Theorem current_monotone_retarding (st : State) (vs v1 v2 : R) :
  opticsInRange st ->
  stoppingPotential (calculatePhysics st) = Fin vs ->
  - vs <= v1 -> v1 <= v2 -> v2 <= 0 ->
  JS.le (current (calculatePhysics (set_voltage v1 st)))
        (current (calculatePhysics (set_voltage v2 st))).
Proof.
  intros Ho Hs L1 L12 L2.
  pose proof (opticsInRange_wavelength st Ho) as W.
  pose proof (saturationOf_nonneg st Ho) as S.
  rewrite stoppingPotential_eq, maxKineticEnergy_fin in Hs by exact W.
  injection Hs as Hs.
  rewrite !current_fin by exact W.
  apply le_fin. cbv zeta.
  change (photonEnergyOf (set_voltage v1 st)) with (photonEnergyOf st).
  change (photonEnergyOf (set_voltage v2 st)) with (photonEnergyOf st).
  change (saturationOf (set_voltage v1 st)) with (saturationOf st).
  change (saturationOf (set_voltage v2 st)) with (saturationOf st).
  cbn [set_voltage currentMaterial voltage].
  rewrite Hs.
  destruct (JS.Rgtb (photonEnergyOf st) (workFunction (currentMaterial st)))
    eqn:E; cbn [andb]; [|lra].
  apply Rgtb_true in E.
  assert (P : 0 < vs).
  { rewrite <- Hs. unfold Rmax. destruct (Rle_dec _ _); lra. }
  replace (JS.Rgeb v1 (- vs)) with true
    by (symmetry; apply Rgeb_true; lra).
  replace (JS.Rgeb v2 (- vs)) with true
    by (symmetry; apply Rgeb_true; lra).
  assert (X : forall v, v <= 0 -> exp (v / vs) <= 1).
  { intros v Hv. rewrite <- exp_0.
    destruct (Req_dec_T v 0) as [->|N].
    - unfold Rdiv. rewrite Rmult_0_l. lra.
    - left. apply exp_increasing.
      apply Rmult_neg_pos; [lra | now apply Rinv_0_lt_compat]. }
  destruct (JS.Rgeb v1 0) eqn:G1; destruct (JS.Rgeb v2 0) eqn:G2.
  - lra.
  - apply Rgeb_true in G1. apply Rgeb_false in G2. lra.
  - pose proof (X v1 ltac:(lra)). nra.
  - apply Rmult_le_compat_l; [exact S|].
    destruct (Req_dec_T v1 v2) as [->|N]; [lra|].
    left. apply exp_increasing.
    apply Rmult_lt_compat_r; [now apply Rinv_0_lt_compat | lra].
Qed.

Lemma current_monotone_retarding_witness :
  JS.le (current (calculatePhysics (set_voltage (-0.5) initialState)))
        (current (calculatePhysics (set_voltage (-0.25) initialState))).
Proof.
  apply (current_monotone_retarding initialState 0.999932).
  - unfold opticsInRange; cbn. lra.
  - apply stoppingPotential_initial.
  - lra.
  - lra.
  - lra.
Defined.

(** ** The sampler on a finite nominal current *)


Lemma readings_length c us n : List.length (readings c us n) = n.
Proof. unfold readings. now rewrite length_map, length_seq. Qed.
















(** ** The claims about the sampler *)









(** ** The ledger *)

Close Scope R_scope.
Open Scope list_scope.

Lemma takePrecisionMeasurement_experimentData us now this :
  let stats :=
    statistics (current (calculatePhysics (state this))) us 1000 in
  exists data,
    experimentData (takePrecisionMeasurement us now this)
    = experimentData this ++ [data]
    /\ m_material data = name (currentMaterial (state this))
    /\ m_voltage data = voltage (state this)
    /\ m_mean data = s_mean stats
    /\ m_standardDeviation data = s_standardDeviation stats
    /\ m_standardError data = s_standardError stats
    /\ m_individualReadings data = s_readings stats
    /\ chartData (takePrecisionMeasurement us now this)
       = chartData this ++ [(voltage (state this), s_mean stats)].
Proof. eexists. repeat split. Qed.

Lemma takePrecisionMeasurement_ledger_ok us now this :
  ledger_ok this -> ledger_ok (takePrecisionMeasurement us now this).
Proof.
  unfold ledger_ok. intros H.
  destruct (takePrecisionMeasurement_experimentData us now this) as (d & -> & _).
  rewrite length_app, H.
  cbn [takePrecisionMeasurement state set_measurementCount measurementCount
       List.length].
  lia.
Qed.

Lemma with_state_ledger_ok st this :
  measurementCount st = measurementCount (state this) ->
  ledger_ok this -> ledger_ok (with_state st this).
Proof. unfold ledger_ok, with_state. cbn. congruence. Qed.

Lemma exportAllData_state now this : fst (exportAllData now this) = this.
Proof.
  unfold exportAllData.
  now destruct (Nat.eqb (List.length (experimentData this)) 0).
Qed.

(** The handlers that only write [this.state]. *)
Ltac state_only E :=
  injection E as <- _; now apply with_state_ledger_ok.

Ltac no_new_record E :=
  injection E as <- _; exists []; now rewrite app_nil_r.

Lemma handle_ledger_ok e this this' effects :
  ledger_ok this ->
  handle e this = Some (this', effects) ->
  ledger_ok this'.
Proof.
  intros H E. destruct e; cbn [handle] in E.
  - destruct (nth_error materials index); [state_only E | discriminate].
  - state_only E.
  - state_only E.
  - state_only E.
  - destruct (isLightOn _); [|state_only E].
    injection E as <- _.
    apply takePrecisionMeasurement_ledger_ok. now apply with_state_ledger_ok.
  - injection E as <- _. unfold toggleLight.
    destruct (isLightOn _); [|exact H].
    apply takePrecisionMeasurement_ledger_ok. exact H.
  - injection E as <- _. reflexivity.
  - injection E as E. pose proof (exportAllData_state now this) as F.
    rewrite E in F. cbn [fst] in F. now subst this'.
  - injection E as <- _. exact H.
Qed.

Lemma handle_appends e this this' effects :
  e <> ResetClick ->
  handle e this = Some (this', effects) ->
  exists added, experimentData this' = experimentData this ++ added.
Proof.
  intros N E. destruct e; cbn [handle] in E.
  - destruct (nth_error materials index); [no_new_record E | discriminate].
  - no_new_record E.
  - no_new_record E.
  - no_new_record E.
  - destruct (isLightOn _); [|no_new_record E].
    injection E as <- _. eexists. reflexivity.
  - injection E as <- _. unfold toggleLight.
    destruct (isLightOn _); [eexists; reflexivity|].
    exists []. now rewrite app_nil_r.
  - contradiction.
  - injection E as E. pose proof (exportAllData_state now this) as F.
    rewrite E in F. cbn [fst] in F. subst this'.
    exists []. now rewrite app_nil_r.
  - no_new_record E.
Qed.

Lemma reachable_ledger_ok this : reachable this -> ledger_ok this.
Proof.
  induction 1 as [|e this this' effects _ IH E].
  - reflexivity.
  - exact (handle_ledger_ok e this this' effects IH E).
Qed.

Lemma lastN_suffix k data :
  exists older, data = older ++ lastN k data /\ List.length (lastN k data) <= k.
Proof.
  exists (firstn (List.length data - k) data). unfold lastN. split.
  - symmetry. apply firstn_skipn.
  - rewrite length_skipn. lia.
Qed.

(** ** The claims about the ledger *)

(** C8. Every handler keeps the number of records equal to the measurement
    counter; every handler except the reset keeps the records it finds, in
    their order, and only appends; the rows shown in the table are the last
    records (at most ten) in their order, and showing them changes nothing. *)
Theorem handle_preserves_ledger
  (e : event) (this this' : Simulator) (effects : list effect) :
  ledger_ok this ->
  handle e this = Some (this', effects) ->
  ledger_ok this' /\
  (e <> ResetClick ->
   exists added, experimentData this' = experimentData this ++ added) /\
  (exists older,
     experimentData this' = older ++ updateDataTable this' /\
     List.length (updateDataTable this') <= 10).
Proof.
  intros H E. split; [|split].
  - exact (handle_ledger_ok e this this' effects H E).
  - intros N. exact (handle_appends e this this' effects N E).
  - apply lastN_suffix.
Qed.

Lemma handle_preserves_ledger_witness :
  let e := SwitchLightClick (fun _ => 0.5%R) 0 in
  let this' := toggleLight (fun _ => 0.5%R) 0 initialSimulator in
  ledger_ok this' /\
  (e <> ResetClick ->
   exists added,
     experimentData this' = experimentData initialSimulator ++ added) /\
  (exists older,
     experimentData this' = older ++ updateDataTable this' /\
     List.length (updateDataTable this') <= 10).
Proof.
  apply (handle_preserves_ledger
           (SwitchLightClick (fun _ => 0.5%R) 0) initialSimulator
           (toggleLight (fun _ => 0.5%R) 0 initialSimulator) []).
  - reflexivity.
  - reflexivity.
Defined.

(** C9. After a reset the table snapshot and the I-V curve (the points of
    the chart, and the points of the records) are empty and the counter is
    zero; a second reset changes nothing. *)
Theorem resetExperiment_idempotent (this : Simulator) :
  let r := resetExperiment this in
  List.length (updateDataTable r) = 0 /\
  List.length (chartData r) = 0 /\
  List.length (ivPoints (experimentData r)) = 0 /\
  measurementCount (state r) = 0 /\
  resetExperiment r = r.
Proof. cbv zeta. repeat split. Qed.

(** C7. On an empty ledger [exportAllData] raises the alert box and nothing
    else: no file is produced, the simulator is returned as it was, and the
    outcome differs from that of every export of a ledger with records. *)
Theorem exportAllData_empty (now : Z) (this : Simulator) :
  experimentData this = [] ->
  exportAllData now this = (this, [Alert noDataMessage]) /\
  (forall stamp content,
     ~ In (Download stamp content) (snd (exportAllData now this))) /\
  (forall now' that,
     experimentData that <> [] ->
     snd (exportAllData now' that) <> snd (exportAllData now this)).
Proof.
  intros H. unfold exportAllData at 1 2 4. rewrite H. cbn [List.length Nat.eqb snd].
  split; [reflexivity | split].
  - intros stamp content [F|[]]. discriminate.
  - intros now' that N. unfold exportAllData.
    destruct (experimentData that) as [|d l]; [contradiction|].
    cbn [List.length Nat.eqb snd]. discriminate.
Qed.

Lemma exportAllData_empty_witness :
  exportAllData 0 initialSimulator = (initialSimulator, [Alert noDataMessage]) /\
  (forall stamp content,
     ~ In (Download stamp content) (snd (exportAllData 0 initialSimulator))) /\
  (forall now' that,
     experimentData that <> [] ->
     snd (exportAllData now' that) <> snd (exportAllData 0 initialSimulator)).
Proof.
  apply (exportAllData_empty 0 initialSimulator). reflexivity.
Defined.

(** The field [Work_Function_eV] of every row is read from the material
    selected when the export runs. *)
Lemma exportRow_workFunction this data d :
  nth 2 (exportRow this data) d
  = Fixed (Fin (workFunction (currentMaterial (state this)))) 6.
Proof. reflexivity. Qed.

(** C3. A measurement is taken with Cesium and Gold is selected afterwards.
    The export has one row; its [Material] field is the recorded ["Cesium"],
    but its [Work_Function_eV] field is 5.10, the work function of Gold,
    not the 2.10 of Cesium. *)
Theorem exportAllData_workFunction_of_selected_material :
  handle (SwitchLightClick (fun _ => 0.5%R) 0) initialSimulator
  = Some (measuredWithCesium, []) /\
  handle (MaterialChange 6) measuredWithCesium = Some (thenGoldSelected, []) /\
  exists data,
    experimentData thenGoldSelected = [data] /\
    m_material data = "Cesium" /\
    exportAllData 1 thenGoldSelected
    = (thenGoldSelected,
       [Download 1 (mkCsv headers [exportRow thenGoldSelected data])]) /\
    nth 1 (exportRow thenGoldSelected data) (Text "") = Text "Cesium" /\
    nth 2 (exportRow thenGoldSelected data) (Text "") = Fixed (Fin 5.10) 6 /\
    workFunction Cesium = 2.10%R.
Proof.
  split; [reflexivity | split; [reflexivity|]].
  eexists. split; [reflexivity|].
  repeat split.
Qed.

(** * Further properties of the physics calculation *)

Open Scope R_scope.

Lemma Rmax_0_pos x : 0 < x -> Rmax 0 x = x.
Proof. intros H. unfold Rmax. destruct (Rle_dec 0 x); lra. Qed.

Lemma Rmax_0_nonpos x : x <= 0 -> Rmax 0 x = 0.
Proof. intros H. unfold Rmax. destruct (Rle_dec 0 x); lra. Qed.

Lemma Rmax_0_nonneg x : 0 <= Rmax 0 x.
Proof. unfold Rmax. destruct (Rle_dec 0 x); lra. Qed.

Lemma Rgeb_intro a b : b <= a -> JS.Rgeb a b = true.
Proof. apply Rgeb_true. Qed.

Lemma Rgeb_intro_false a b : a < b -> JS.Rgeb a b = false.
Proof. apply Rgeb_false. Qed.

(** The photon energy is 1239.9728 eV nm over the wavelength. *)
Lemma photonEnergyOf_inverse st :
  wavelength st <> 0 -> photonEnergyOf st = 1239.9728 / wavelength st.
Proof.
  intros H. unfold photonEnergyOf, planckConstant, speedOfLight, Rdiv.
  rewrite Rinv_mult.
  replace (/ 1e-9) with 1e9 by (apply Rmult_eq_reg_l with (r := 1e-9); [|lra];
                                rewrite Rinv_r by lra; lra).
  lra.
Qed.

(** X1. Below the cutoff there is no current: when the voltage is less than
    minus the stopping potential the current is exactly zero. *)
Theorem current_zero_below_cutoff (st : State) (vs : R) :
  wavelength st <> 0 ->
  stoppingPotential (calculatePhysics st) = Fin vs ->
  voltage st < - vs ->
  current (calculatePhysics st) = Fin 0.
Proof.
  intros W S V.
  rewrite stoppingPotential_eq, maxKineticEnergy_fin in S by exact W.
  injection S as S.
  rewrite current_fin by exact W. cbv zeta. rewrite S.
  rewrite (Rgeb_intro_false _ _ V), andb_false_r. reflexivity.
Qed.

Lemma current_zero_below_cutoff_witness :
  current (calculatePhysics (set_voltage (-2) initialState)) = Fin 0.
Proof.
  apply (current_zero_below_cutoff (set_voltage (-2) initialState) 0.999932).
  - cbn. lra.
  - apply stoppingPotential_initial.
  - cbn. lra.
Defined.

(** X2. In the saturation region the current depends on the intensity and
    the area only: with emission and a voltage of zero or more it is
    [intensity * area * 0.001], whatever the material, the wavelength and
    the voltage. *)
Theorem current_saturation (st : State) :
  wavelength st <> 0 ->
  isEmission (calculatePhysics st) = true ->
  0 <= voltage st ->
  current (calculatePhysics st) = Fin (intensity st * area st * 0.001).
Proof.
  intros W E V.
  rewrite isEmission_fin in E by exact W.
  rewrite current_fin by exact W. cbv zeta. rewrite E. cbn [andb].
  pose proof (Rmax_0_nonneg
                (photonEnergyOf st - workFunction (currentMaterial st))) as M.
  rewrite (Rgeb_intro (voltage st) (- Rmax 0 _)) by lra.
  rewrite (Rgeb_intro (voltage st) 0) by lra.
  reflexivity.
Qed.

Lemma isEmission_initial v :
  isEmission (calculatePhysics (set_voltage v initialState)) = true.
Proof.
  rewrite isEmission_fin by (cbn; lra).
  change (photonEnergyOf (set_voltage v initialState))
    with (photonEnergyOf initialState).
  rewrite photonEnergyOf_initial. apply Rgtb_true. cbn. lra.
Qed.

Lemma current_saturation_witness :
  current (calculatePhysics (set_voltage 0 initialState)) = Fin (5 * 0.10 * 0.001).
Proof.
  apply (current_saturation (set_voltage 0 initialState)).
  - cbn. lra.
  - apply isEmission_initial.
  - cbn. lra.
Defined.

(** X3. Without emission nothing flows: when the photon energy does not
    exceed the work function, the maximal kinetic energy and the stopping
    potential are zero and the current is zero at every voltage, however
    large. *)
Theorem no_emission_no_current (st : State) :
  wavelength st <> 0 ->
  isEmission (calculatePhysics st) = false ->
  maxKineticEnergy (calculatePhysics st) = Fin 0 /\
  stoppingPotential (calculatePhysics st) = Fin 0 /\
  forall v, current (calculatePhysics (set_voltage v st)) = Fin 0.
Proof.
  intros W E.
  rewrite isEmission_fin in E by exact W.
  pose proof E as E'. apply Rgtb_false in E'.
  rewrite stoppingPotential_eq, maxKineticEnergy_fin by exact W.
  rewrite Rmax_0_nonpos by lra.
  repeat split. intros v.
  rewrite current_fin by exact W. cbv zeta.
  change (photonEnergyOf (set_voltage v st)) with (photonEnergyOf st).
  cbn [set_voltage currentMaterial]. rewrite E. reflexivity.
Qed.

Lemma isEmission_gold : isEmission (calculatePhysics goldAt400) = false.
Proof.
  rewrite isEmission_fin by (cbn; lra).
  change (photonEnergyOf goldAt400) with (photonEnergyOf initialState).
  rewrite photonEnergyOf_initial. apply Rgtb_false. cbn. lra.
Qed.

Lemma no_emission_no_current_witness :
  maxKineticEnergy (calculatePhysics goldAt400) = Fin 0 /\
  stoppingPotential (calculatePhysics goldAt400) = Fin 0 /\
  forall v, current (calculatePhysics (set_voltage v goldAt400)) = Fin 0.
Proof.
  apply (no_emission_no_current goldAt400).
  - cbn. lra.
  - apply isEmission_gold.
Defined.

(** X5. The threshold the simulator really applies: with a material of the
    table and the wavelength at a whole number of nm from 100 to 700, as
    the slider delivers it, emission is possible exactly when the
    wavelength is less than 1239.9728 over the work function in eV. *)
Theorem emission_threshold (st : State) (n : Z) :
  In (currentMaterial st) materials ->
  wavelength st = IZR n ->
  (100 <= n <= 700)%Z ->
  (isEmission (calculatePhysics st) = true
   <-> IZR n < 1239.9728 / workFunction (currentMaterial st)).
Proof.
  intros M Hn [Lo Hi].
  pose proof (materials_workFunction_pos _ M) as P.
  assert (W : 0 < wavelength st).
  { rewrite Hn. apply IZR_le in Lo. lra. }
  rewrite isEmission_fin by lra.
  rewrite photonEnergyOf_inverse by lra.
  rewrite <- Hn.
  set (l := wavelength st) in *. set (w := workFunction (currentMaterial st)) in *.
  assert (A : 1239.9728 / l * l = 1239.9728) by (field; lra).
  assert (B : 1239.9728 / w * w = 1239.9728) by (field; lra).
  split.
  - intros H. apply Rgtb_true in H.
    apply Rmult_lt_reg_r with (r := w); [exact P|]. rewrite B. nra.
  - intros H. apply Rgtb_true.
    apply Rmult_lt_reg_r with (r := l); [exact W|]. rewrite A. nra.
Qed.

Lemma emission_threshold_witness :
  isEmission (calculatePhysics initialState) = true
  <-> IZR 400 < 1239.9728 / workFunction (currentMaterial initialState).
Proof.
  apply (emission_threshold initialState 400).
  - left. reflexivity.
  - reflexivity.
  - lia.
Defined.

(** The current as a function of the voltage, for a saturation current
    [sat] and a positive stopping potential [vs]. *)
Lemma exp_div_le_1 v vs : 0 < vs -> v <= 0 -> exp (v / vs) <= 1.
Proof.
  intros P V. rewrite <- exp_0.
  destruct (Req_dec_T v 0) as [->|N].
  - unfold Rdiv. rewrite Rmult_0_l. lra.
  - left. apply exp_increasing.
    apply Rmult_neg_pos; [lra | now apply Rinv_0_lt_compat].
Qed.

Lemma exp_div_monotone v1 v2 vs :
  0 < vs -> v1 <= v2 -> exp (v1 / vs) <= exp (v2 / vs).
Proof.
  intros P V. destruct (Req_dec_T v1 v2) as [->|N]; [lra|].
  left. apply exp_increasing.
  apply Rmult_lt_compat_r; [now apply Rinv_0_lt_compat | lra].
Qed.

Lemma current_profile st v :
  wavelength st <> 0 ->
  isEmission (calculatePhysics st) = true ->
  let vs := photonEnergyOf st - workFunction (currentMaterial st) in
  0 < vs /\
  current (calculatePhysics (set_voltage v st))
  = Fin (if JS.Rgeb v (- vs)
         then if JS.Rgeb v 0 then saturationOf st
              else saturationOf st * exp (v / vs)
         else 0).
Proof.
  intros W E vs. subst vs.
  rewrite isEmission_fin in E by exact W.
  pose proof E as E'. apply Rgtb_true in E'.
  split; [lra|].
  rewrite current_fin by exact W. cbv zeta.
  change (photonEnergyOf (set_voltage v st)) with (photonEnergyOf st).
  change (saturationOf (set_voltage v st)) with (saturationOf st).
  cbn [set_voltage currentMaterial voltage].
  rewrite E. cbn [andb]. now rewrite Rmax_0_pos by lra.
Qed.

Lemma current_no_emission st v :
  wavelength st <> 0 ->
  isEmission (calculatePhysics st) = false ->
  current (calculatePhysics (set_voltage v st)) = Fin 0.
Proof.
  intros W E. rewrite isEmission_fin in E by exact W.
  rewrite current_fin by exact W. cbv zeta.
  change (photonEnergyOf (set_voltage v st)) with (photonEnergyOf st).
  cbn [set_voltage currentMaterial]. now rewrite E.
Qed.

Lemma current_initial :
  current (calculatePhysics initialState) = Fin (5 * 0.10 * 0.001).
Proof.
  destruct (current_profile initialState 0 ltac:(cbn; lra)
                            (isEmission_initial 0)) as [P C].
  change (set_voltage 0 initialState) with initialState in C.
  rewrite C.
  rewrite (Rgeb_intro 0 (- _)) by lra. rewrite (Rgeb_intro 0 0) by lra.
  reflexivity.
Qed.

Lemma exp_minus_1_third : / 3 <= exp (-1).
Proof.
  replace (-1) with (- (1)) by lra.
  rewrite exp_Ropp. pose proof exp_le_3 as H. pose proof (exp_pos 1) as P.
  apply Rinv_le_contravar; assumption.
Qed.

(** X6. The current jumps at the cutoff: with emission, as soon as the
    voltage is not below minus the stopping potential the current is
    positive and at least a third of the saturation current
    [intensity * area * 0.001]; below the cutoff it is zero. *)
Theorem current_jump_at_cutoff (st : State) :
  opticsInRange st ->
  isEmission (calculatePhysics st) = true ->
  JS.ge (Fin (voltage st)) (JS.neg (stoppingPotential (calculatePhysics st)))
  = true ->
  exists c,
    current (calculatePhysics st) = Fin c /\
    intensity st * area st * 0.001 / 3 <= c /\
    0 < c.
Proof.
  intros Ho E G.
  pose proof (opticsInRange_wavelength st Ho) as W.
  assert (S3 : 0 < saturationOf st).
  { destruct Ho as (_ & Hi & Ha). unfold saturationOf. nra. }
  rewrite stoppingPotential_eq, maxKineticEnergy_fin in G by exact W.
  cbn [JS.neg JS.ge] in G.
  rewrite isEmission_fin in E by exact W.
  rewrite current_fin by exact W. cbv zeta. rewrite E, G. cbn [andb].
  apply Rgtb_true in E. apply Rgeb_true in G.
  rewrite Rmax_0_pos in * by lra.
  set (vs := photonEnergyOf st - workFunction (currentMaterial st)) in *.
  unfold saturationOf in *.
  set (sat := intensity st * area st * 0.001) in *.
  eexists. split; [reflexivity|].
  destruct (JS.Rgeb (voltage st) 0) eqn:V; [split; lra|].
  assert (P : 0 < vs) by (unfold vs; lra).
  assert (X : exp (-1) <= exp (voltage st / vs)).
  { replace (-1) with (- vs / vs) by (field; lra).
    apply exp_div_monotone; lra. }
  pose proof exp_minus_1_third as T.
  pose proof (exp_pos (voltage st / vs)) as Y.
  split; nra.
Qed.

Lemma current_jump_at_cutoff_witness :
  exists c,
    current (calculatePhysics (set_voltage (-0.5) initialState)) = Fin c /\
    intensity (set_voltage (-0.5) initialState)
    * area (set_voltage (-0.5) initialState) * 0.001 / 3 <= c /\
    0 < c.
Proof.
  apply (current_jump_at_cutoff (set_voltage (-0.5) initialState)).
  - unfold opticsInRange; cbn. lra.
  - apply isEmission_initial.
  - change (stoppingPotential
              (calculatePhysics (set_voltage (-0.5) initialState)))
      with (stoppingPotential (calculatePhysics initialState)).
    rewrite stoppingPotential_initial. cbn [JS.neg JS.ge voltage set_voltage].
    apply Rgeb_true. lra.
Defined.

(** X7. The I-V characteristic never falls: with the wavelength, intensity
    and area in their ranges, a higher voltage never gives a lower current,
    over the whole voltage axis. *)
Theorem current_monotone (st : State) (v1 v2 : R) :
  opticsInRange st ->
  v1 <= v2 ->
  JS.le (current (calculatePhysics (set_voltage v1 st)))
        (current (calculatePhysics (set_voltage v2 st))).
Proof.
  intros Ho V.
  pose proof (opticsInRange_wavelength st Ho) as W.
  pose proof (saturationOf_nonneg st Ho) as S.
  destruct (isEmission (calculatePhysics st)) eqn:E.
  - destruct (current_profile st v1 W E) as [P ->].
    destruct (current_profile st v2 W E) as [_ ->].
    set (vs := photonEnergyOf st - workFunction (currentMaterial st)) in *.
    apply le_fin.
    pose proof (exp_pos (v1 / vs)) as X1.
    pose proof (exp_pos (v2 / vs)) as X2.
    destruct (JS.Rgeb v1 (- vs)) eqn:A1; destruct (JS.Rgeb v2 (- vs)) eqn:A2;
      destruct (JS.Rgeb v1 0) eqn:B1; destruct (JS.Rgeb v2 0) eqn:B2;
      try apply Rgeb_true in A1; try apply Rgeb_false in A1;
      try apply Rgeb_true in A2; try apply Rgeb_false in A2;
      try apply Rgeb_true in B1; try apply Rgeb_false in B1;
      try apply Rgeb_true in B2; try apply Rgeb_false in B2;
      try lra; try nra.
    + pose proof (exp_div_le_1 v1 vs P ltac:(lra)). nra.
    + pose proof (exp_div_monotone v1 v2 vs P V). nra.
  - rewrite !current_no_emission by assumption. apply le_fin. lra.
Qed.

Lemma current_monotone_witness :
  JS.le (current (calculatePhysics (set_voltage (-3) initialState)))
        (current (calculatePhysics (set_voltage 2 initialState))).
Proof.
  apply (current_monotone initialState (-3) 2).
  - unfold opticsInRange; cbn. lra.
  - lra.
Defined.

(** X8. The current is never negative and never exceeds the saturation
    current [intensity * area * 0.001], at any voltage. *)
Theorem current_bounds (st : State) :
  opticsInRange st ->
  exists c,
    current (calculatePhysics st) = Fin c /\
    0 <= c <= intensity st * area st * 0.001.
Proof.
  intros Ho.
  pose proof (opticsInRange_wavelength st Ho) as W.
  pose proof (saturationOf_nonneg st Ho) as S. unfold saturationOf in S.
  rewrite current_fin by exact W. cbv zeta. eexists. split; [reflexivity|].
  unfold saturationOf.
  set (pe := photonEnergyOf st). set (wf := workFunction (currentMaterial st)).
  destruct (JS.Rgtb pe wf) eqn:E; cbn [andb]; [|lra].
  apply Rgtb_true in E.
  destruct (JS.Rgeb (voltage st) (- Rmax 0 (pe - wf))) eqn:A; [|lra].
  destruct (JS.Rgeb (voltage st) 0) eqn:B; [lra|].
  apply Rgeb_false in B.
  rewrite Rmax_0_pos by lra.
  pose proof (exp_pos (voltage st / (pe - wf))) as X1.
  pose proof (exp_div_le_1 (voltage st) (pe - wf) ltac:(lra) ltac:(lra)) as X2.
  nra.
Qed.

Lemma current_bounds_witness :
  exists c,
    current (calculatePhysics initialState) = Fin c /\
    0 <= c <= intensity initialState * area initialState * 0.001.
Proof.
  apply (current_bounds initialState). unfold opticsInRange; cbn. lra.
Defined.

(** X28. A longer wavelength never raises the stopping potential: for
    positive wavelengths [l1 <= l2] and the other parameters fixed, the
    stopping potential at [l2] is at most the one at [l1]. *)
Theorem stoppingPotential_antitone (st : State) (l1 l2 : R) :
  0 < l1 -> l1 <= l2 ->
  JS.le (stoppingPotential (calculatePhysics (set_wavelength l2 st)))
        (stoppingPotential (calculatePhysics (set_wavelength l1 st))).
Proof.
  intros P L.
  rewrite !stoppingPotential_eq, !maxKineticEnergy_fin by (cbn; lra).
  rewrite !photonEnergyOf_inverse by (cbn; lra).
  cbn [set_wavelength wavelength currentMaterial].
  apply le_fin.
  assert (Q : 1239.9728 / l2 <= 1239.9728 / l1).
  { unfold Rdiv. apply Rmult_le_compat_l; [lra|].
    apply Rinv_le_contravar; lra. }
  apply Rle_max_compat_l. lra.
Qed.

Lemma stoppingPotential_antitone_witness :
  JS.le (stoppingPotential (calculatePhysics (set_wavelength 500 initialState)))
        (stoppingPotential (calculatePhysics (set_wavelength 300 initialState))).
Proof.
  apply (stoppingPotential_antitone initialState 300 500); lra.
Defined.

(** * Further properties of the sampler *)









(** * Further properties of the ledger and the handlers *)

Close Scope R_scope.

Lemma ivPoints_app a b : ivPoints (a ++ b) = ivPoints a ++ ivPoints b.
Proof. unfold ivPoints. apply map_app. Qed.

Lemma takePrecisionMeasurement_state us now this :
  state (takePrecisionMeasurement us now this)
  = set_measurementCount (S (measurementCount (state this))) (state this).
Proof. reflexivity. Qed.

Lemma takePrecisionMeasurement_record us now this :
  let stats :=
    statistics (current (calculatePhysics (state this))) us 1000 in
  exists d,
    experimentData (takePrecisionMeasurement us now this)
    = experimentData this ++ [d]
    /\ chartData (takePrecisionMeasurement us now this)
       = chartData this ++ [(m_voltage d, m_mean d)]
    /\ m_material d = name (currentMaterial (state this))
    /\ m_voltage d = voltage (state this)
    /\ m_mean d = s_mean stats
    /\ m_measurements d = 1000
    /\ m_individualReadings d = s_readings stats
    /\ m_timestamp d = now.
Proof.
  unfold takePrecisionMeasurement. cbn [experimentData chartData].
  eexists. split; [reflexivity|].
  cbn [m_voltage m_mean m_material m_measurements m_individualReadings
       m_timestamp].
  repeat split.
Qed.

Lemma invariant_initial : invariant initialSimulator.
Proof.
  split.
  - left. reflexivity.
  - reflexivity.
  - constructor.
  - exists []. reflexivity.
Qed.

Lemma invariant_with_state st this :
  In (currentMaterial st) materials ->
  experimentRunning st = false ->
  invariant this -> invariant (with_state st this).
Proof. intros M R [ ]. split; assumption. Qed.

Lemma invariant_measure us now this :
  invariant this -> invariant (takePrecisionMeasurement us now this).
Proof.
  intros [M R D C].
  destruct (takePrecisionMeasurement_record us now this)
    as (d & E & Hc & Hm & Hv & Hmean & Hn & Hr & _).
  split.
  - exact M.
  - exact R.
  - rewrite E. apply Forall_app. split; [exact D|].
    constructor; [|constructor].
    repeat split.
    + exact Hn.
    + rewrite Hr. cbn [statistics s_readings]. apply readings_length.
    + exists (currentMaterial (state this)). split; [exact M | exact Hm].
  - destruct C as [older C]. exists older.
    rewrite E, Hc, ivPoints_app, C, <- app_assoc. reflexivity.
Qed.

Lemma invariant_reset this : invariant this -> invariant (resetExperiment this).
Proof.
  intros [M R D C]. split.
  - left. reflexivity.
  - exact R.
  - constructor.
  - exists []. reflexivity.
Qed.

Lemma invariant_clearGraph this : invariant this -> invariant (clearGraph this).
Proof.
  intros [M R D C]. split; try assumption.
  exists (ivPoints (experimentData this)). cbn [clearGraph chartData experimentData].
  now rewrite app_nil_r.
Qed.

Lemma handle_invariant e this this' effects :
  invariant this ->
  handle e this = Some (this', effects) ->
  invariant this'.
Proof.
  intros I E. pose proof I as [M R D C].
  destruct e; cbn [handle] in E.
  - destruct (nth_error materials index) as [m|] eqn:N; [|discriminate].
    injection E as <- _. apply invariant_with_state; try assumption.
    cbn. now apply nth_error_In in N.
  - injection E as <- _. now apply invariant_with_state.
  - injection E as <- _. now apply invariant_with_state.
  - injection E as <- _. now apply invariant_with_state.
  - destruct (isLightOn _); injection E as <- _.
    + apply invariant_measure. now apply invariant_with_state.
    + now apply invariant_with_state.
  - injection E as <- _. unfold toggleLight.
    destruct (isLightOn _).
    + apply invariant_measure. now split.
    + now split.
  - injection E as <- _. now apply invariant_reset.
  - injection E as E. pose proof (exportAllData_state now this) as F.
    rewrite E in F. cbn [fst] in F. now subst this'.
  - injection E as <- _. now apply invariant_clearGraph.
Qed.

Lemma reachable_invariant this : reachable this -> invariant this.
Proof.
  induction 1 as [|e this this' effects _ IH E].
  - exact invariant_initial.
  - exact (handle_invariant e this this' effects IH E).
Qed.

Lemma reachable_measuredWithCesium : reachable measuredWithCesium.
Proof.
  apply (reachable_step (SwitchLightClick (fun _ => 0.5%R) 0)
                        initialSimulator measuredWithCesium []).
  - apply reachable_init.
  - reflexivity.
Qed.

Lemma reachable_thenGoldSelected : reachable thenGoldSelected.
Proof.
  apply (reachable_step (MaterialChange 6) measuredWithCesium
                        thenGoldSelected []).
  - apply reachable_measuredWithCesium.
  - reflexivity.
Qed.

(** X13. The chart never shows a point the ledger does not hold: in every
    simulator the handlers can produce, the points of the chart are the
    last I-V points of the records, in the same order (all of them unless
    the chart was cleared since). *)
Theorem chart_is_suffix_of_ledger (this : Simulator) :
  reachable this ->
  exists older,
    ivPoints (experimentData this) = older ++ chartData this /\
    List.length (chartData this) <= List.length (experimentData this).
Proof.
  intros H. destruct (reachable_invariant this H) as [_ _ _ [older C]].
  exists older. split; [exact C|].
  assert (L : List.length (ivPoints (experimentData this))
              = List.length (experimentData this))
    by (unfold ivPoints; apply length_map).
  rewrite <- L, C, length_app. lia.
Qed.

Lemma chart_is_suffix_of_ledger_witness :
  exists older,
    ivPoints (experimentData measuredWithCesium)
    = older ++ chartData measuredWithCesium /\
    List.length (chartData measuredWithCesium)
    <= List.length (experimentData measuredWithCesium).
Proof.
  apply (chart_is_suffix_of_ledger measuredWithCesium).
  apply reachable_measuredWithCesium.
Defined.

(** X14. The selected material always comes from the table: in every
    simulator the handlers can produce its work function is positive and the
    threshold wavelength of the physics result is a finite positive
    number, so the zero work function never occurs. *)
Theorem reachable_material_from_table (this : Simulator) :
  reachable this ->
  In (currentMaterial (state this)) materials /\
  (0 < workFunction (currentMaterial (state this)))%R /\
  exists t,
    thresholdWavelength (calculatePhysics (state this)) = Fin t /\ (0 < t)%R.
Proof.
  intros H. destruct (reachable_invariant this H) as [M _ _ _].
  pose proof (materials_workFunction_pos _ M) as P.
  split; [exact M | split; [exact P|]].
  exists (thresholdOf (state this)). split.
  - apply thresholdWavelength_fin. lra.
  - unfold thresholdOf. pose proof planck_light_pos as Q.
    apply Rmult_lt_0_compat; [|lra].
    apply Rdiv_lt_0_compat; [exact Q | nra].
Qed.

Lemma reachable_material_from_table_witness :
  In (currentMaterial (state thenGoldSelected)) materials /\
  (0 < workFunction (currentMaterial (state thenGoldSelected)))%R /\
  exists t,
    thresholdWavelength (calculatePhysics (state thenGoldSelected)) = Fin t
    /\ (0 < t)%R.
Proof.
  apply (reachable_material_from_table thenGoldSelected).
  apply reachable_thenGoldSelected.
Defined.

(** X15. Every record of a ledger the handlers can produce holds exactly
    1000 readings, says so in its count, and names a material of the
    table. *)
Theorem reachable_records_ok (this : Simulator) :
  reachable this ->
  Forall (fun d =>
            m_measurements d = 1000 /\
            List.length (m_individualReadings d) = 1000 /\
            exists m, In m materials /\ m_material d = name m)
         (experimentData this).
Proof.
  intros H. destruct (reachable_invariant this H) as [_ _ D _]. exact D.
Qed.

Lemma reachable_records_ok_witness :
  Forall (fun d =>
            m_measurements d = 1000 /\
            List.length (m_individualReadings d) = 1000 /\
            exists m, In m materials /\ m_material d = name m)
         (experimentData thenGoldSelected).
Proof.
  apply (reachable_records_ok thenGoldSelected).
  apply reachable_thenGoldSelected.
Defined.

(** X16. A reset brings every simulator the handlers can produce back to the
    simulator the constructor builds: default parameters, light off, empty
    ledger and empty chart. *)
Theorem reset_restores_initial (this : Simulator) :
  reachable this -> resetExperiment this = initialSimulator.
Proof.
  intros H. destruct (reachable_invariant this H) as [_ R _ _].
  destruct this as [st data chart]. destruct st.
  cbn [state experimentRunning] in R. subst. reflexivity.
Qed.

Lemma reset_restores_initial_witness :
  resetExperiment thenGoldSelected = initialSimulator.
Proof.
  apply (reset_restores_initial thenGoldSelected).
  apply reachable_thenGoldSelected.
Defined.

(** X17. Two clicks on the light switch leave the light as it was and
    record exactly one measurement, whether the light was on or off. *)
Theorem toggleLight_twice
  (us1 us2 : nat -> R) (now1 now2 : Z) (this : Simulator) :
  let r := toggleLight us2 now2 (toggleLight us1 now1 this) in
  isLightOn (state r) = isLightOn (state this) /\
  measurementCount (state r) = S (measurementCount (state this)) /\
  exists d, experimentData r = experimentData this ++ [d].
Proof.
  destruct this as [st data chart].
  destruct st as [m w i a v light running n].
  cbv zeta. destruct light.
  - split; [reflexivity | split; [reflexivity|]].
    eexists. reflexivity.
  - split; [reflexivity | split; [reflexivity|]].
    eexists. reflexivity.
Qed.

(** X18. Moving the voltage slider takes a measurement exactly when the
    light is on, and the point it records carries the new voltage: the
    voltage is stored before the measurement is taken. *)
Theorem voltage_input_records
  (v : R) (us : nat -> R) (now : Z) (this this' : Simulator)
  (effects : list effect) :
  handle (VoltageInput v us now) this = Some (this', effects) ->
  voltage (state this') = v /\
  (isLightOn (state this) = true ->
   exists d,
     experimentData this' = experimentData this ++ [d] /\
     chartData this' = chartData this ++ [(v, m_mean d)] /\
     m_voltage d = v) /\
  (isLightOn (state this) = false ->
   experimentData this' = experimentData this /\
   chartData this' = chartData this).
Proof.
  intros E. cbn [handle] in E. unfold with_state in E.
  cbn [state set_voltage isLightOn] in E.
  destruct (isLightOn (state this)) eqn:L; injection E as <- _.
  - split; [reflexivity | split; [|discriminate]].
    intros _.
    destruct (takePrecisionMeasurement_record us now
                (mkSimulator (set_voltage v (state this))
                             (experimentData this) (chartData this)))
      as (d & Ed & Ec & _ & Hv & _).
    cbn [state set_voltage voltage experimentData chartData] in *.
    exists d. split; [exact Ed | split; [|exact Hv]].
    now rewrite Ec, Hv.
  - split; [reflexivity | split; [discriminate|]].
    intros _. split; reflexivity.
Qed.

Lemma voltage_input_records_witness :
  let this := measuredWithCesium in
  let this' :=
    takePrecisionMeasurement (fun _ => 0.5%R) 7
      (with_state (set_voltage (-0.5)%R (state this)) this) in
  voltage (state this') = (-0.5)%R /\
  (isLightOn (state this) = true ->
   exists d,
     experimentData this' = experimentData this ++ [d] /\
     chartData this' = chartData this ++ [((-0.5)%R, m_mean d)] /\
     m_voltage d = (-0.5)%R) /\
  (isLightOn (state this) = false ->
   experimentData this' = experimentData this /\
   chartData this' = chartData this).
Proof.
  apply (voltage_input_records (-0.5)%R (fun _ => 0.5%R) 7
           measuredWithCesium _ []).
  reflexivity.
Defined.

Lemma lastN_length k data :
  List.length (lastN k data) = Nat.min k (List.length data).
Proof. unfold lastN. rewrite length_skipn. lia. Qed.

(** X19. The table shows the ten newest records, or all of them when there
    are at most ten; after a measurement its last row is the record just
    taken. *)
Theorem updateDataTable_newest (us : nat -> R) (now : Z) (this : Simulator) :
  List.length (updateDataTable this)
  = Nat.min 10 (List.length (experimentData this)) /\
  (List.length (experimentData this) <= 10 ->
   updateDataTable this = experimentData this) /\
  exists d,
    experimentData (takePrecisionMeasurement us now this)
    = experimentData this ++ [d] /\
    m_timestamp d = now /\
    forall d0, last (updateDataTable (takePrecisionMeasurement us now this)) d0
               = d.
Proof.
  split; [apply lastN_length | split].
  - intros H. unfold updateDataTable, lastN.
    replace (List.length (experimentData this) - 10) with 0 by lia.
    reflexivity.
  - destruct (takePrecisionMeasurement_record us now this)
      as (d & E & _ & _ & _ & _ & _ & _ & T).
    exists d. split; [exact E | split; [exact T|]].
    intros d0. unfold updateDataTable, lastN. rewrite E.
    rewrite length_app. cbn [List.length].
    rewrite skipn_app.
    set (n := List.length (experimentData this)).
    replace (n + 1 - 10 - n) with 0 by lia. cbn [skipn].
    apply last_last.
Qed.

Lemma updateDataTable_newest_witness :
  List.length (updateDataTable initialSimulator)
  = Nat.min 10 (List.length (experimentData initialSimulator)) /\
  (List.length (experimentData initialSimulator) <= 10 ->
   updateDataTable initialSimulator = experimentData initialSimulator) /\
  exists d,
    experimentData (takePrecisionMeasurement (fun _ => 0.5%R) 3 initialSimulator)
    = experimentData initialSimulator ++ [d] /\
    m_timestamp d = 3%Z /\
    forall d0,
      last (updateDataTable
              (takePrecisionMeasurement (fun _ => 0.5%R) 3 initialSimulator)) d0
      = d.
Proof.
  apply (updateDataTable_newest (fun _ => 0.5%R) 3 initialSimulator).
Defined.

Lemma exportAllData_nonempty now this :
  experimentData this <> [] ->
  exportAllData now this
  = (this, [Download now (mkCsv headers (map (exportRow this)
                                             (experimentData this)))]).
Proof.
  intros H. unfold exportAllData.
  destruct (experimentData this) as [|d l]; [contradiction | reflexivity].
Qed.

(** X20. With at least one record the export produces one file and no
    alert: the header of 13 fields, one row per record, and 13 fields in
    every row. *)
Theorem exportAllData_shape (now : Z) (this : Simulator) :
  experimentData this <> [] ->
  exists content,
    exportAllData now this = (this, [Download now content]) /\
    headerLine content = headers /\
    List.length (headerLine content) = 13 /\
    List.length (rowLines content) = List.length (experimentData this) /\
    Forall (fun row => List.length row = 13) (rowLines content).
Proof.
  intros H. eexists. split; [now apply exportAllData_nonempty|].
  cbn [headerLine rowLines].
  split; [reflexivity | split; [reflexivity | split]].
  - apply length_map.
  - apply Forall_map. apply Forall_forall. intros d _. reflexivity.
Qed.

Lemma experimentData_measuredWithCesium :
  experimentData measuredWithCesium <> [].
Proof.
  destruct (takePrecisionMeasurement_record (fun _ => 0.5%R) 0
              (mkSimulator (set_isLightOn true initialState) [] []))
    as (d & E & _).
  change (experimentData measuredWithCesium
          = experimentData (mkSimulator (set_isLightOn true initialState) [] [])
            ++ [d]) in E.
  rewrite E. cbn [experimentData app]. discriminate.
Qed.

Lemma exportAllData_shape_witness :
  exists content,
    exportAllData 1 measuredWithCesium
    = (measuredWithCesium, [Download 1 content]) /\
    headerLine content = headers /\
    List.length (headerLine content) = 13 /\
    List.length (rowLines content)
    = List.length (experimentData measuredWithCesium) /\
    Forall (fun row => List.length row = 13) (rowLines content).
Proof.
  apply (exportAllData_shape 1 measuredWithCesium).
  apply experimentData_measuredWithCesium.
Defined.

(** X21. The export carries the I-V data of the whole ledger: the voltage
    and mean fields of its rows are, in order, the I-V points of the
    records, each with six decimals; clearing the chart does not change
    the file. *)
Theorem exportAllData_iv_points (now : Z) (this : Simulator) :
  experimentData this <> [] ->
  exists content,
    snd (exportAllData now this) = [Download now content] /\
    map rowPoint (rowLines content)
    = map (fun p => (Fixed (Fin (fst p)) 6, Fixed (snd p) 6))
          (ivPoints (experimentData this)) /\
    map (fun row => nth 1 row (Text "")) (rowLines content)
    = map (fun d => Text (m_material d)) (experimentData this) /\
    snd (exportAllData now (clearGraph this)) = snd (exportAllData now this).
Proof.
  intros H. eexists. rewrite exportAllData_nonempty by exact H.
  split; [reflexivity|]. cbn [rowLines].
  split; [|split].
  - unfold ivPoints. rewrite !map_map. reflexivity.
  - rewrite map_map. reflexivity.
  - rewrite exportAllData_nonempty by exact H. reflexivity.
Qed.

Lemma exportAllData_iv_points_witness :
  exists content,
    snd (exportAllData 1 measuredWithCesium) = [Download 1 content] /\
    map rowPoint (rowLines content)
    = map (fun p => (Fixed (Fin (fst p)) 6, Fixed (snd p) 6))
          (ivPoints (experimentData measuredWithCesium)) /\
    map (fun row => nth 1 row (Text "")) (rowLines content)
    = map (fun d => Text (m_material d)) (experimentData measuredWithCesium) /\
    snd (exportAllData 1 (clearGraph measuredWithCesium))
    = snd (exportAllData 1 measuredWithCesium).
Proof.
  apply (exportAllData_iv_points 1 measuredWithCesium).
  apply experimentData_measuredWithCesium.
Defined.

(** * The display helpers and the log *)

Open Scope R_scope.

Lemma lt_fin a b : lt (Fin a) (Fin b) = true <-> a < b.
Proof. unfold lt. cbn [JS.gt]. apply Rgtb_true. Qed.

Lemma lt_fin_false a b : lt (Fin a) (Fin b) = false <-> b <= a.
Proof. unfold lt. cbn [JS.gt]. apply Rgtb_false. Qed.

(** The colours of the visible spectrum, as [getWavelengthColor] names
    them. *)
Lemma getWavelengthColor_cases w :
  (w < 380 /\ getWavelengthColor w = "#8B00FF") \/
  (380 <= w < 440 /\ getWavelengthColor w = "#4B0082") \/
  (440 <= w < 490 /\ getWavelengthColor w = "#0000FF") \/
  (490 <= w < 510 /\ getWavelengthColor w = "#00FF00") \/
  (510 <= w < 580 /\ getWavelengthColor w = "#FFFF00") \/
  (580 <= w < 645 /\ getWavelengthColor w = "#FF7F00") \/
  (645 <= w < 750 /\ getWavelengthColor w = "#FF0000") \/
  (750 <= w /\ getWavelengthColor w = "#8B0000").
Proof.
  unfold getWavelengthColor.
  destruct (lt (Fin w) (Fin 380)) eqn:A;
    [apply lt_fin in A; left; split; [lra | reflexivity] |
     apply lt_fin_false in A; right].
  destruct (lt (Fin w) (Fin 440)) eqn:B;
    [apply lt_fin in B; left; split; [lra | reflexivity] |
     apply lt_fin_false in B; right].
  destruct (lt (Fin w) (Fin 490)) eqn:C;
    [apply lt_fin in C; left; split; [lra | reflexivity] |
     apply lt_fin_false in C; right].
  destruct (lt (Fin w) (Fin 510)) eqn:D;
    [apply lt_fin in D; left; split; [lra | reflexivity] |
     apply lt_fin_false in D; right].
  destruct (lt (Fin w) (Fin 580)) eqn:E;
    [apply lt_fin in E; left; split; [lra | reflexivity] |
     apply lt_fin_false in E; right].
  destruct (lt (Fin w) (Fin 645)) eqn:F;
    [apply lt_fin in F; left; split; [lra | reflexivity] |
     apply lt_fin_false in F; right].
  destruct (lt (Fin w) (Fin 750)) eqn:G;
    [apply lt_fin in G; left; split; [lra | reflexivity] |
     apply lt_fin_false in G; right].
  split; [lra | reflexivity].
Qed.

(** X22. The fall-through colour, dark red, is returned exactly from 750 nm
    on; so over the range of the wavelength slider, 100 to 700 nm, it never
    appears, and everything below 380 nm is shown in one colour, violet. *)
Theorem getWavelengthColor_dark_red (w : R) :
  (getWavelengthColor w = "#8B0000" <-> 750 <= w) /\
  (getWavelengthColor w = "#8B00FF" <-> w < 380) /\
  (100 <= w <= 700 ->
   In (getWavelengthColor w)
      ["#8B00FF"; "#4B0082"; "#0000FF"; "#00FF00"; "#FFFF00"; "#FF7F00";
       "#FF0000"]).
Proof.
  pose proof (getWavelengthColor_cases w) as H.
  repeat split.
  - intros E. rewrite E in H.
    destruct H as [[_ H]|[[_ H]|[[_ H]|[[_ H]|[[_ H]|[[_ H]|[[_ H]|[H _]]]]]]]];
      try discriminate H. exact H.
  - intros L.
    destruct H as [[X _]|[[X _]|[[X _]|[[X _]|[[X _]|[[X _]|[[X _]|[_ H]]]]]]]];
      try lra. exact H.
  - intros E. rewrite E in H.
    destruct H as [[H _]|[[_ H]|[[_ H]|[[_ H]|[[_ H]|[[_ H]|[[_ H]|[_ H]]]]]]]];
      try discriminate H. exact H.
  - intros L.
    destruct H as [[_ H]|[[X _]|[[X _]|[[X _]|[[X _]|[[X _]|[[X _]|[X _]]]]]]]];
      try lra. exact H.
  - intros R.
    destruct H as [[_ ->]|[[_ ->]|[[_ ->]|[[_ ->]|[[_ ->]|[[_ ->]|[[_ ->]|[X _]]]]]]]];
      cbn [In]; try tauto. lra.
Qed.

Lemma getWavelengthColor_dark_red_witness :
  (getWavelengthColor 400 = "#8B0000" <-> 750 <= 400) /\
  (getWavelengthColor 400 = "#8B00FF" <-> 400 < 380) /\
  (100 <= 400 <= 700 ->
   In (getWavelengthColor 400)
      ["#8B00FF"; "#4B0082"; "#0000FF"; "#00FF00"; "#FFFF00"; "#FF7F00";
       "#FF0000"]).
Proof.
  apply (getWavelengthColor_dark_red 400).
Defined.

Close Scope R_scope.

Lemma trimLog_skipn log :
  trimLog log = skipn (List.length log - 20) log.
Proof.
  induction log as [|e rest IH]; [reflexivity|].
  cbn [trimLog]. destruct (Nat.ltb 20 (List.length (e :: rest))) eqn:L.
  - apply Nat.ltb_lt in L. cbn [List.length] in *.
    rewrite IH.
    replace (S (List.length rest) - 20) with (S (List.length rest - 20)) by lia.
    reflexivity.
  - apply Nat.ltb_ge in L.
    replace (List.length (e :: rest) - 20) with 0 by lia. reflexivity.
Qed.

(** X24. The log panel is a bounded buffer: after [logMessage] it holds the
    new entry last, preceded by the newest earlier entries in their order,
    and never more than 20 entries in all. *)
Theorem logMessage_bounded (timestamp message : string) (log : list LogEntry) :
  let log' := logMessage timestamp message log in
  List.length log' = Nat.min 20 (S (List.length log)) /\
  (exists dropped,
     log ++ [mkLogEntry timestamp message] = dropped ++ log') /\
  (forall d, last log' d = mkLogEntry timestamp message) /\
  (List.length log < 20 -> log' = log ++ [mkLogEntry timestamp message]).
Proof.
  cbv zeta. unfold logMessage. rewrite trimLog_skipn.
  set (e := mkLogEntry timestamp message).
  assert (Len : List.length (log ++ [e]) = S (List.length log))
    by (rewrite length_app; cbn; lia).
  rewrite Len.
  split; [|split; [|split]].
  - rewrite length_skipn, Len. lia.
  - exists (firstn (S (List.length log) - 20) (log ++ [e])).
    symmetry. apply firstn_skipn.
  - intros d. rewrite skipn_app.
    replace (S (List.length log) - 20 - List.length log) with 0 by lia.
    cbn [skipn]. apply last_last.
  - intros H. replace (S (List.length log) - 20) with 0 by lia. reflexivity.
Qed.

Lemma logMessage_bounded_witness :
  let log' := logMessage "10:00:00" "Light source activated" [] in
  List.length log' = Nat.min 20 (S (List.length (@nil LogEntry))) /\
  (exists dropped,
     [] ++ [mkLogEntry "10:00:00" "Light source activated"] = dropped ++ log') /\
  (forall d, last log' d = mkLogEntry "10:00:00" "Light source activated") /\
  (List.length (@nil LogEntry) < 20 ->
   log' = [] ++ [mkLogEntry "10:00:00" "Light source activated"]).
Proof.
  apply (logMessage_bounded "10:00:00" "Light source activated" []).
Defined.

(** * The particle animation *)

Open Scope R_scope.

Lemma ge_fin a b : JS.ge (Fin a) (Fin b) = true <-> b <= a.
Proof. cbn [JS.ge]. apply Rgeb_true. Qed.

Lemma ge_fin_false a b : JS.ge (Fin a) (Fin b) = false <-> a < b.
Proof. cbn [JS.ge]. apply Rgeb_false. Qed.

(** What the photon filter keeps, leaving aside the electrons and the
    random values: the moved photons that have not reached the cathode. *)
Lemma filterPhotons_kept st rs photons es k :
  fst (fst (filterPhotons st rs photons es k))
  = filter (fun p => negb (JS.ge (Fin (ph_x p)) (Fin 250)))
           (map movePhoton photons).
Proof.
  revert es k. induction photons as [|p rest IH]; intros es k; [reflexivity|].
  cbn [filterPhotons map filter].
  destruct (JS.ge (Fin (ph_x (movePhoton p))) (Fin 250)) eqn:G; cbn [negb].
  - destruct (isEmission (calculatePhysics st));
      [destruct (lt (Fin (rs k)) (Fin 0.7))|]; apply IH.
  - specialize (IH es k).
    destruct (filterPhotons st rs rest es k) as [[kept es'] k'].
    cbn [fst] in IH. apply ge_fin_false in G.
    replace (lt (Fin (ph_x (movePhoton p))) (Fin 600)) with true
      by (symmetry; apply lt_fin; lra).
    cbn [fst]. now rewrite IH.
Qed.

Lemma filter_length_le {A} (f : A -> bool) l :
  (List.length (filter f l) <= List.length l)%nat.
Proof.
  induction l as [|x l IH]; cbn [filter List.length]; [lia|].
  destruct (f x); cbn [List.length]; lia.
Qed.

Lemma spaced_filter f photons :
  spaced photons -> spaced (filter f photons).
Proof.
  induction photons as [|p rest IH]; intros H; [exact I|].
  destruct H as (X & Sp & Hr). cbn [filter].
  destruct (f p); [|now apply IH].
  cbn [spaced]. split; [|split; [exact Sp | now apply IH]].
  pose proof (filter_length_le f rest) as L.
  apply le_n_S, le_INR in L. lra.
Qed.

Lemma spaced_move photons :
  spaced photons -> spaced (map movePhoton photons).
Proof.
  induction photons as [|p rest IH]; intros H; [exact I|].
  destruct H as (X & Sp & Hr). cbn [map spaced].
  rewrite length_map. cbn [movePhoton ph_x ph_speed].
  split; [lra | split; [exact Sp | now apply IH]].
Qed.

Lemma spaced_move_push photons p :
  spaced photons -> 105 <= ph_x p -> 2 <= ph_speed p ->
  spaced (map movePhoton (photons ++ [p])).
Proof.
  intros H X Sp. induction photons as [|q rest IH].
  - cbn [app map spaced List.length movePhoton ph_x ph_speed INR].
    repeat split; lra.
  - destruct H as (Xq & Sq & Hr). cbn [app map spaced].
    rewrite length_map, length_app. cbn [List.length movePhoton ph_x ph_speed].
    split; [|split; [exact Sq | now apply IH]].
    replace (S (List.length rest + 1)) with (S (S (List.length rest))) by lia.
    rewrite (S_INR (S (List.length rest))).
    set (a := INR (S (List.length rest))) in *. lra.
Qed.

Lemma spaced_length photons :
  spaced photons ->
  Forall (fun p => ph_x p < 250) photons ->
  (List.length photons <= 72)%nat.
Proof.
  destruct photons as [|p rest]; intros H F; [cbn; lia|].
  destruct H as (X & _ & _). inversion F as [|? ? Hp _]; subst.
  cbn [List.length].
  destruct (le_lt_dec (S (List.length rest)) 72) as [L|L]; [exact L|].
  assert (B : INR 73 <= INR (S (List.length rest))) by (apply le_INR; lia).
  replace (INR 73) with 73 in B by (rewrite INR_IZR_INZ; reflexivity).
  lra.
Qed.

Lemma updateSetupAnimation_photons st rs k particles :
  isLightOn st = true ->
  photonParticles (fst (updateSetupAnimation st rs k particles))
  = filter (fun p => negb (JS.ge (Fin (ph_x p)) (Fin 250)))
      (map movePhoton
         (if lt (Fin (rs k)) (Fin 0.4)
          then photonParticles particles
               ++ [mkPhoton 105 (150 + (rs (S k) - 0.5) * 40)
                            (2 + rs (S (S k))) (3 + rs (S (S (S k))) * 2)
                            (getWavelengthColor (wavelength st))]
          else photonParticles particles)).
Proof.
  intros L. unfold updateSetupAnimation. rewrite L. cbn [negb].
  destruct (lt (Fin (rs k)) (Fin 0.4)).
  - rewrite <- filterPhotons_kept
      with (st := st) (rs := rs) (es := electronParticles particles)
           (k := S (S (S (S k)))).
    destruct (filterPhotons _ _ _ _ _) as [[kept es'] k']. reflexivity.
  - rewrite <- filterPhotons_kept
      with (st := st) (rs := rs) (es := electronParticles particles)
           (k := S k).
    destruct (filterPhotons _ _ _ _ _) as [[kept es'] k']. reflexivity.
Qed.

Lemma updateSetupAnimation_photons_ok st rs k particles :
  uniform rs ->
  photons_ok particles ->
  photons_ok (fst (updateSetupAnimation st rs k particles)).
Proof.
  intros U [Sp F].
  destruct (isLightOn st) eqn:L.
  - unfold photons_ok. rewrite updateSetupAnimation_photons by exact L.
    split.
    + apply spaced_filter.
      destruct (lt (Fin (rs k)) (Fin 0.4)).
      * apply spaced_move_push; [exact Sp | cbn; lra |].
        cbn [ph_speed]. pose proof (U (S (S k))). lra.
      * now apply spaced_move.
    + apply Forall_forall. intros p Hp. apply filter_In in Hp as [_ Hp].
      apply negb_true_iff, ge_fin_false in Hp. exact Hp.
  - unfold updateSetupAnimation. rewrite L. cbn [negb fst]. now split.
Qed.

Lemma frames_photons_ok sts rs k particles :
  uniform rs ->
  photons_ok particles ->
  photons_ok (fst (frames sts rs k particles)).
Proof.
  intros U. revert k particles.
  induction sts as [|st rest IH]; intros k particles H; [exact H|].
  cbn [frames].
  pose proof (updateSetupAnimation_photons_ok st rs k particles U H) as H'.
  destruct (updateSetupAnimation st rs k particles) as [particles' k'].
  now apply IH.
Qed.

(** X25. The photons of the animation never pile up: starting from no
    particles and drawing any number of frames, with any parameters and any
    uniform random source, there are never more than 72 photons, and none
    of them has reached the cathode at x = 250. *)
Theorem photons_bounded (sts : list State) (rs : nat -> R) (k : nat) :
  uniform rs ->
  let particles := fst (frames sts rs k noParticles) in
  (List.length (photonParticles particles) <= 72)%nat /\
  Forall (fun p => ph_x p < 250) (photonParticles particles).
Proof.
  intros U particles.
  assert (H : photons_ok particles).
  { apply frames_photons_ok; [exact U|]. split; constructor. }
  destruct H as [Sp F]. split; [now apply spaced_length | exact F].
Qed.

Lemma photons_bounded_witness :
  let particles :=
    fst (frames [set_isLightOn true initialState] (fun _ => 0.25) 0
                noParticles) in
  (List.length (photonParticles particles) <= 72)%nat /\
  Forall (fun p => ph_x p < 250) (photonParticles particles).
Proof.
  apply (photons_bounded [set_isLightOn true initialState] (fun _ => 0.25) 0).
  intros i. lra.
Defined.

(** The electrons the photon filter leaves: those it was given, followed by
    the new ones, all created with a life of 60 and a size of 2, and none
    at all without emission. *)
Lemma filterPhotons_electrons st rs photons es k :
  exists created,
    snd (fst (filterPhotons st rs photons es k)) = (es ++ created)%list /\
    Forall (fun e => el_life e = 60%Z /\ el_size e = 2) created /\
    (isEmission (calculatePhysics st) = false -> created = []).
Proof.
  revert es k. induction photons as [|p rest IH]; intros es k.
  - exists []. cbn [filterPhotons fst snd]. rewrite app_nil_r.
    repeat split. constructor.
  - cbn [filterPhotons].
    destruct (JS.ge (Fin (ph_x (movePhoton p))) (Fin 250)).
    + destruct (isEmission (calculatePhysics st)) eqn:E.
      * destruct (lt (Fin (rs k)) (Fin 0.7)).
        -- destruct (IH (es ++ [mkElectron 270 (ph_y (movePhoton p))
                                            (1.5 + rs (S k)) 2 60])%list
                        (S (S k))) as (created & -> & F & _).
           eexists. rewrite <- app_assoc. split; [reflexivity | split].
           ++ constructor; [split; reflexivity | exact F].
           ++ discriminate.
        -- destruct (IH es (S k)) as (created & -> & F & _).
           exists created. repeat split; [exact F | discriminate].
      * destruct (IH es k) as (created & -> & F & N).
        exists created. repeat split; [exact F | exact N].
    + destruct (IH es k) as (created & Ec & F & N).
      destruct (filterPhotons st rs rest es k) as [[kept es'] k'].
      cbn [fst snd] in Ec. exists created.
      destruct (lt (Fin (ph_x (movePhoton p))) (Fin 600)); cbn [fst snd];
        repeat split; assumption.
Qed.

Lemma updateSetupAnimation_electrons st rs k particles :
  isLightOn st = true ->
  exists created,
    electronParticles (fst (updateSetupAnimation st rs k particles))
    = filter keepElectron
        (map moveElectron (electronParticles particles ++ created))%list /\
    Forall (fun e => el_life e = 60%Z /\ el_size e = 2) created /\
    (isEmission (calculatePhysics st) = false -> created = []).
Proof.
  intros L. unfold updateSetupAnimation. rewrite L. cbn [negb].
  destruct (lt (Fin (rs k)) (Fin 0.4)).
  - destruct (filterPhotons_electrons st rs
                (photonParticles particles
                 ++ [mkPhoton 105 (150 + (rs (S k) - 0.5) * 40)
                              (2 + rs (S (S k))) (3 + rs (S (S (S k))) * 2)
                              (getWavelengthColor (wavelength st))])%list
                (electronParticles particles) (S (S (S (S k)))))
      as (created & Ec & F & N).
    destruct (filterPhotons _ _ _ _ _) as [[kept es'] k'].
    cbn [fst snd] in Ec. subst es'. exists created. now repeat split.
  - destruct (filterPhotons_electrons st rs (photonParticles particles)
                (electronParticles particles) (S k))
      as (created & Ec & F & N).
    destruct (filterPhotons _ _ _ _ _) as [[kept es'] k'].
    cbn [fst snd] in Ec. subst es'. exists created. now repeat split.
Qed.

Lemma updateSetupAnimation_light_off st rs k particles :
  isLightOn st = false ->
  updateSetupAnimation st rs k particles = (particles, k).
Proof. intros L. unfold updateSetupAnimation. now rewrite L. Qed.

Lemma updateSetupAnimation_electrons_ok st rs k particles :
  electrons_ok particles ->
  electrons_ok (fst (updateSetupAnimation st rs k particles)).
Proof.
  intros H. destruct (isLightOn st) eqn:L.
  - unfold electrons_ok in *.
    destruct (updateSetupAnimation_electrons st rs k particles L)
      as (created & -> & F & _).
    apply Forall_forall. intros e He.
    apply filter_In in He as [He K].
    apply in_map_iff in He as (e0 & <- & He0).
    unfold keepElectron in K. apply andb_true_iff in K as [K1 K2].
    apply Z.ltb_lt in K1. apply lt_fin in K2.
    cbn [moveElectron el_life el_x el_size] in *.
    apply in_app_or in He0 as [Old|New].
    + rewrite Forall_forall in H. destruct (H e0 Old) as (Hl & _ & Hs).
      repeat split; [lia | lia | exact K2 | exact Hs].
    + rewrite Forall_forall in F. destruct (F e0 New) as (Hl & Hs).
      repeat split; [lia | lia | exact K2 | exact Hs].
  - now rewrite updateSetupAnimation_light_off.
Qed.

Lemma updateSetupAnimation_no_electrons st rs k particles :
  isEmission (calculatePhysics st) = false ->
  electronParticles particles = [] ->
  electronParticles (fst (updateSetupAnimation st rs k particles)) = [].
Proof.
  intros E N. destruct (isLightOn st) eqn:L.
  - destruct (updateSetupAnimation_electrons st rs k particles L)
      as (created & -> & _ & C).
    now rewrite N, (C E).
  - now rewrite updateSetupAnimation_light_off.
Qed.

(** X26. Without emission no electron is ever drawn: starting from no
    particles, frames whose parameters all rule out emission leave the list
    of electrons empty, whatever the random source. *)
Theorem no_emission_no_electrons (sts : list State) (rs : nat -> R) (k : nat) :
  Forall (fun st => isEmission (calculatePhysics st) = false) sts ->
  electronParticles (fst (frames sts rs k noParticles)) = [].
Proof.
  intros F.
  assert (G : forall particles k0,
             electronParticles particles = [] ->
             electronParticles (fst (frames sts rs k0 particles)) = []).
  { induction F as [|st rest E _ IH]; intros particles k0 N; [exact N|].
    cbn [frames].
    pose proof (updateSetupAnimation_no_electrons st rs k0 particles E N) as N'.
    destruct (updateSetupAnimation st rs k0 particles) as [particles' k'].
    now apply IH. }
  now apply G.
Qed.

Lemma no_emission_no_electrons_witness :
  electronParticles
    (fst (frames [set_isLightOn true goldAt400] (fun _ => 0.25) 0 noParticles))
  = [].
Proof.
  apply (no_emission_no_electrons [set_isLightOn true goldAt400]
                                  (fun _ => 0.25) 0).
  constructor; [|constructor].
  apply isEmission_gold.
Defined.

(** X27. Every electron of the animation fades and stops in time: starting
    from no particles, after any number of frames each electron has a
    remaining life between 1 and 59 (so its opacity [life / 60] is
    positive and below 1), lies left of the collector at x = 380 and has
    size 2. *)
Theorem electrons_within_bounds (sts : list State) (rs : nat -> R) (k : nat) :
  Forall (fun e => (1 <= el_life e <= 59)%Z /\ el_x e < 380 /\ el_size e = 2)
         (electronParticles (fst (frames sts rs k noParticles))).
Proof.
  assert (G : forall particles k0,
             electrons_ok particles ->
             electrons_ok (fst (frames sts rs k0 particles))).
  { induction sts as [|st rest IH]; intros particles k0 H; [exact H|].
    cbn [frames].
    pose proof (updateSetupAnimation_electrons_ok st rs k0 particles H) as H'.
    destruct (updateSetupAnimation st rs k0 particles) as [particles' k'].
    now apply IH. }
  apply (G noParticles k). constructor.
Qed.
